(** * ClientDialog: a shallow embedding of [src/components/ClientDialog.tsx]

    The component is a React function component.  Its state hooks become a
    record, its event handlers become computations in a small monad that
    logs the state updates they queue and the outside calls they make (and
    can abort with an uncaught exception), and React's commit of the queued
    updates becomes a fold over that log.  JavaScript objects used as maps
    are [gmap]s from property names to values; JavaScript strings are
    sequences of UTF-16 code units. *)

From Stdlib Require Import Ascii String.
From stdpp Require Import gmap strings list fin_maps pretty.

#[local] Set Warnings "-register-all".
#[local] Open Scope Z_scope.

(** ** The fragment of JavaScript the component relies on *)
Module JS.

(** A string is its sequence of UTF-16 code units. *)
Abbreviation jsstr := (list N).

(** String literals of the source (all of them ASCII). *)
Definition js (s : string) : jsstr :=
  (λ c, N_of_ascii c) <$> list_ascii_of_string s.

(** Values.  Numbers are restricted to integers, which is what record
    identifiers and timestamps are; functions and arrays do not occur in
    the held record. *)
Inductive jsval :=
| VUndef
| VNull
| VBool (b : bool)
| VNum (z : Z)
| VStr (s : jsstr)
| VObj (o : gmap jsstr jsval).

Abbreviation obj := (gmap jsstr jsval).

(** [o.k] and [o[k]] on the own properties of [o]: a missing property
    reads as [undefined] (names inherited from [Object.prototype], such as
    [toString], are not represented). *)
Definition get (o : obj) (k : jsstr) : jsval := default VUndef (o !! k).

(** ToBoolean. *)
Definition truthy (v : jsval) : bool :=
  match v with
  | VUndef | VNull => false
  | VBool b => b
  | VNum z => negb (z =? 0)
  | VStr s => negb (bool_decide (s = []))
  | VObj _ => true
  end.

(** [a || b] *)
Definition or_else (a b : jsval) : jsval := if truthy a then a else b.

(** [a ?? b] *)
Definition nullish_else (a b : jsval) : jsval :=
  match a with
  | VUndef | VNull => b
  | VBool _ | VNum _ | VStr _ | VObj _ => a
  end.

(** WhiteSpace and LineTerminator code points, the ones
    [String.prototype.trim] strips. *)
Definition is_whitespace (c : N) : bool :=
  bool_decide (c ∈ [0x0009; 0x000A; 0x000B; 0x000C; 0x000D; 0x0020; 0x00A0;
                    0x1680; 0x2000; 0x2001; 0x2002; 0x2003; 0x2004; 0x2005;
                    0x2006; 0x2007; 0x2008; 0x2009; 0x200A; 0x2028; 0x2029;
                    0x202F; 0x205F; 0x3000; 0xFEFF]%N).

Fixpoint trimStart (s : jsstr) : jsstr :=
  match s with
  | [] => []
  | c :: s' => if is_whitespace c then trimStart s' else s
  end.

Definition trimEnd (s : jsstr) : jsstr := reverse (trimStart (reverse s)).

(** [s.trim()] *)
Definition trim (s : jsstr) : jsstr := trimEnd (trimStart s).

(** [s.substr(from, len)] for non-negative arguments. *)
Definition substr (from len : nat) (s : jsstr) : jsstr := take len (drop from s).

(** [parts.join(sep)] on an array of strings. *)
Fixpoint join (sep : jsstr) (parts : list jsstr) : jsstr :=
  match parts with
  | [] => []
  | [p] => p
  | p :: rest => p ++ sep ++ join sep rest
  end.

(** [n.toString()] and the conversion of a number inside a template
    literal: plain decimal digits, as JavaScript prints every integer of
    magnitude below 10^21. *)
Definition number_to_string (z : Z) : jsstr := js (pretty z).

(** [v.toString()] for the values on which the method exists. *)
Definition toString (v : jsval) : jsstr :=
  match v with
  | VStr s => s
  | VNum z => number_to_string z
  | VBool true => js "true"
  | VBool false => js "false"
  | VObj _ => js "[object Object]"
  | VUndef | VNull => []
  end.

(** The own enumerable properties that an object spread [{...v}] copies:
    those of an object, the indexed code units of a string, nothing for
    any other primitive. *)
Definition own_properties (v : jsval) : obj :=
  match v with
  | VObj o => o
  | VStr s => list_to_map (imap (λ i c, (js (pretty i), VStr [c])) s)
  | _ => ∅
  end.

(** [{...a, ...b}]: later properties win.  The result is the map from
    names to values; the order in which [Object.entries] would list the
    properties is not represented. *)
Definition spread2 (a b : obj) : obj := b ∪ a.

End JS.
Import JS.

(** ** The component *)
Module ClientDialog.

(** *** Props, state and the outside world *)

Inductive Mode := Create | Edit.

Definition Mode_eqb (a b : Mode) : bool :=
  match a, b with
  | Create, Create | Edit, Edit => true
  | _, _ => false
  end.

(** The [client] prop is an object: React compares effect dependencies
    with [Object.is], so the object's identity is kept next to its
    properties. *)
Record Client := { client_ref : N; client_fields : obj }.

(** One entry of the column metadata ([ColumnMetadata] is declared outside
    this file; the component reads [id] and [column_name]). *)
Record ColumnMetadata := { column_id : jsval; column_name : jsstr }.

(** [onClose] and [onSave] are callbacks of the caller: calling one is an
    outside call, recorded in the log below. *)
Record Props := {
  open : bool;
  client : option Client;
  mode : Mode
}.

(** The seven [useState] cells. *)
Record State := {
  formData : obj;
  customFieldsOpen : bool;
  documentsOpen : bool;
  tempClientId : jsstr;
  dynamicColumns : list ColumnMetadata;
  validationError : jsstr;
  showValidationError : bool
}.

(** [useState] initial values. *)
Definition initial_state : State := {|
  formData := ∅;
  customFieldsOpen := false;
  documentsOpen := false;
  tempClientId := [];
  dynamicColumns := [];
  validationError := [];
  showValidationError := false
|}.

(** What the initialization effect reads from the outside: [Date.now()]
    and the string [Math.random().toString(36)]. *)
Record Env := { Date_now : Z; Math_random_base36 : jsstr }.

(** Everything a handler or an effect does besides computing: it queues a
    state update or calls out of the component. *)
Inductive action :=
| setFormData (o : obj)
| setFormData_with (updater : obj → obj)
| setCustomFieldsOpen (b : bool)
| setDocumentsOpen (b : bool)
| setTempClientId (s : jsstr)
| setDynamicColumns (cs : list ColumnMetadata)
| setValidationError (s : jsstr)
| setShowValidationError (b : bool)
| onSave (record : obj)
| onClose
| getColumnMetadata
| console_error (msg : jsstr) (error : jsval)
| window_open (url : jsval) (target : jsstr).

(** *** Computations: a log of actions and a result or an uncaught exception *)

Inductive outcome (A : Type) :=
| Returned (a : A)
| Threw (error : jsstr).
Arguments Returned {A} a.
Arguments Threw {A} error.

Definition M (A : Type) : Type := list action * outcome A.

Definition ret {A} (a : A) : M A := ([], Returned a).
Definition throw {A} (e : jsstr) : M A := ([], Threw e).
Definition perform (a : action) : M () := ([a], Returned ()).
Definition bind {A B} (m : M A) (k : A → M B) : M B :=
  match m with
  | (log, Returned a) => let '(log', r) := k a in (log ++ log', r)
  | (log, Threw e) => (log, Threw e)
  end.

Notation "'let!' x ':=' m 'in' k" := (bind m (λ x, k))
  (at level 10, x name, m at level 100, k at level 200, only parsing).
Notation "m >> k" := (bind m (λ _, k))
  (at level 100, k at level 200, right associativity, only parsing).

Definition actions {A} (m : M A) : list action := fst m.
Definition result {A} (m : M A) : outcome A := snd m.

(** React applies the queued updates in order; outside calls leave the
    state alone. *)
Definition apply_action (st : State) (a : action) : State :=
  match a with
  | setFormData o =>
      {| formData := o; customFieldsOpen := customFieldsOpen st;
         documentsOpen := documentsOpen st; tempClientId := tempClientId st;
         dynamicColumns := dynamicColumns st;
         validationError := validationError st;
         showValidationError := showValidationError st |}
  | setFormData_with f =>
      {| formData := f (formData st); customFieldsOpen := customFieldsOpen st;
         documentsOpen := documentsOpen st; tempClientId := tempClientId st;
         dynamicColumns := dynamicColumns st;
         validationError := validationError st;
         showValidationError := showValidationError st |}
  | setCustomFieldsOpen b =>
      {| formData := formData st; customFieldsOpen := b;
         documentsOpen := documentsOpen st; tempClientId := tempClientId st;
         dynamicColumns := dynamicColumns st;
         validationError := validationError st;
         showValidationError := showValidationError st |}
  | setDocumentsOpen b =>
      {| formData := formData st; customFieldsOpen := customFieldsOpen st;
         documentsOpen := b; tempClientId := tempClientId st;
         dynamicColumns := dynamicColumns st;
         validationError := validationError st;
         showValidationError := showValidationError st |}
  | setTempClientId s =>
      {| formData := formData st; customFieldsOpen := customFieldsOpen st;
         documentsOpen := documentsOpen st; tempClientId := s;
         dynamicColumns := dynamicColumns st;
         validationError := validationError st;
         showValidationError := showValidationError st |}
  | setDynamicColumns cs =>
      {| formData := formData st; customFieldsOpen := customFieldsOpen st;
         documentsOpen := documentsOpen st; tempClientId := tempClientId st;
         dynamicColumns := cs;
         validationError := validationError st;
         showValidationError := showValidationError st |}
  | setValidationError s =>
      {| formData := formData st; customFieldsOpen := customFieldsOpen st;
         documentsOpen := documentsOpen st; tempClientId := tempClientId st;
         dynamicColumns := dynamicColumns st;
         validationError := s;
         showValidationError := showValidationError st |}
  | setShowValidationError b =>
      {| formData := formData st; customFieldsOpen := customFieldsOpen st;
         documentsOpen := documentsOpen st; tempClientId := tempClientId st;
         dynamicColumns := dynamicColumns st;
         validationError := validationError st;
         showValidationError := b |}
  | onSave _ | onClose | getColumnMetadata | console_error _ _
  | window_open _ _ => st
  end.

Definition commit (st : State) (log : list action) : State :=
  foldl apply_action st log.

(** *** Property names and literals of the source *)

Definition first_name : jsstr := js "first_name".
Definition last_name : jsstr := js "last_name".
Definition primary_email : jsstr := js "primary_email".
Definition primary_phone : jsstr := js "primary_phone".
Definition case_status : jsstr := js "case_status".
Definition is_active : jsstr := js "is_active".
Definition user_defined_fields : jsstr := js "user_defined_fields".
Definition client_documents : jsstr := js "client_documents".
Definition prop_id : jsstr := js "id".

(** The argument of an [onChange] handler, as far as the component reads
    it: [event.target.type], [.checked] and [.value]. *)
Record ChangeEvent := {
  target_type : jsstr;
  target_checked : bool;
  target_value : jsstr
}.

(** *** Event handlers

    A handler is a closure of one render: it reads the props and the state
    of that render. *)
Section Render.
Context (props : Props) (st : State).

(** [handleChange(field)(event)] *)
Definition handleChange (field : jsstr) (event : ChangeEvent) : M () :=
  let value :=
    if bool_decide (target_type event = js "checkbox")
    then VBool (target_checked event)
    else VStr (target_value event) in
  perform (setFormData (<[field := value]> (formData st))).

(** [handleDynamicFieldChange(columnName, value)] *)
Definition handleDynamicFieldChange (columnName : jsstr) (value : jsval) : M () :=
  perform (setFormData_with (λ prev, <[columnName := value]> prev)).

(** The updater of [handleCustomFieldsSave]. *)
Definition merge_user_defined_fields (fields : obj) (prev : obj) : obj :=
  <[user_defined_fields :=
      VObj (spread2 (own_properties (or_else (get prev user_defined_fields) (VObj ∅)))
                    fields)]> prev.

(** [handleCustomFieldsSave(fields)] *)
Definition handleCustomFieldsSave (fields : obj) : M () :=
  perform (setFormData_with (merge_user_defined_fields fields)).

(** The updater of [handleDocumentsSave]. *)
Definition merge_client_documents (documents : obj) (prev : obj) : obj :=
  <[client_documents :=
      VObj (spread2 (own_properties (or_else (get prev client_documents) (VObj ∅)))
                    documents)]> prev.

(** [handleDocumentsSave(documents)] *)
Definition handleDocumentsSave (documents : obj) : M () :=
  perform (setFormData_with (merge_client_documents documents)).

(** [handleDeleteCustomField(fieldName)] *)
Definition handleDeleteCustomField (fieldName : jsstr) : M () :=
  let updatedFields := own_properties (get (formData st) user_defined_fields) in
  let updatedFields := delete fieldName updatedFields in
  perform (setFormData_with (λ prev, <[user_defined_fields := VObj updatedFields]> prev)).

(** [handleDeleteDocument(docName)] *)
Definition handleDeleteDocument (docName : jsstr) : M () :=
  let updatedDocs := own_properties (get (formData st) client_documents) in
  let updatedDocs := delete docName updatedDocs in
  perform (setFormData_with (λ prev, <[client_documents := VObj updatedDocs]> prev)).

(** [v?.trim()]: [undefined] on a nullish value, the trimmed string on a
    string, and a TypeError on anything else, which has no [trim] method. *)
Definition optional_trim (v : jsval) : M jsval :=
  match v with
  | VUndef | VNull => ret VUndef
  | VStr s => ret (VStr (trim s))
  | VBool _ | VNum _ | VObj _ => throw (js "TypeError")
  end.

(** The test [!formData.<field>?.trim()] *)
Definition is_missing (field : jsstr) : M bool :=
  let! trimmed := optional_trim (get (formData st) field) in
  ret (negb (truthy trimmed)).

(** [validateMandatoryFields()] *)
Definition validateMandatoryFields : M bool :=
  let missingFields : list jsstr := [] in
  let! missing := is_missing first_name in
  let missingFields :=
    if missing then missingFields ++ [js "First Name"] else missingFields in
  let! missing := is_missing last_name in
  let missingFields :=
    if missing then missingFields ++ [js "Last Name"] else missingFields in
  let! missing := is_missing primary_email in
  let missingFields :=
    if missing then missingFields ++ [js "Primary Email"] else missingFields in
  let! missing := is_missing primary_phone in
  let missingFields :=
    if missing then missingFields ++ [js "Primary Phone"] else missingFields in
  if (0 <? length missingFields)%nat then
    let errorMessage :=
      js "Please fill the following mandatory fields: "
      ++ join (js ", ") missingFields in
    perform (setValidationError errorMessage) >>
    perform (setShowValidationError true) >>
    ret false
  else ret true.

(** [handleSubmit()] *)
Definition handleSubmit : M () :=
  match mode props with
  | Create =>
      let! valid := validateMandatoryFields in
      if negb valid then ret () else perform (onSave (formData st))
  | Edit => perform (onSave (formData st))
  end.

(** [handleCloseValidationError()] *)
Definition handleCloseValidationError : M () :=
  perform (setShowValidationError false).

(** [getClientIdForDocuments()] *)
Definition getClientIdForDocuments : jsstr :=
  let client_id :=                                   (* client?.id *)
    match client props with
    | Some c => get (client_fields c) prop_id
    | None => VUndef
    end in
  if Mode_eqb (mode props) Edit && truthy client_id
  then toString client_id
  else tempClientId st.

(** The props the render passes to [<DocumentsDialog>]; its [onSave] is
    [handleDocumentsSave] and its [onClose] queues [setDocumentsOpen(false)]. *)
Record DocumentsDialogProps := {
  dd_open : bool;
  dd_documents : jsval;
  dd_clientId : jsstr
}.

Definition render_DocumentsDialog : DocumentsDialogProps := {|
  dd_open := documentsOpen st;
  dd_documents := or_else (get (formData st) client_documents) (VObj ∅);
  dd_clientId := getClientIdForDocuments
|}.

End Render.

(** *** Effects *)

(** The temporary identifier
    [`temp_${Date.now()}_${Math.random().toString(36).substr(2, 9)}`]. *)
Definition make_temp_id (env : Env) : jsstr :=
  js "temp_" ++ number_to_string (Date_now env) ++ js "_"
  ++ substr 2 9 (Math_random_base36 env).

(** The record a create session starts from. *)
Definition default_form : obj := {[ case_status := VStr (js "Active") ]}.

(** Body of the first [useEffect], dependencies [[client, mode]]. *)
Definition init_effect (props : Props) (env : Env) : M () :=
  match client props, mode props with
  | Some c, Edit => perform (setFormData (client_fields c))
  | _, _ =>
      let tempId := make_temp_id env in
      perform (setTempClientId tempId) >>
      perform (setFormData default_form)
  end.

(** [fetchDynamicColumns()] up to its [await]: the request is issued. *)
Definition fetchDynamicColumns : M () := perform getColumnMetadata.

(** [fetchDynamicColumns()] after the [await]: the promise was fulfilled
    with the columns, or rejected with an error that the [catch] logs. *)
Definition fetchDynamicColumns_settled
    (settled : list ColumnMetadata + jsval) : M () :=
  match settled with
  | inl columns => perform (setDynamicColumns columns)
  | inr error => perform (console_error (js "Error fetching dynamic columns:") error)
  end.

(** Body of the second [useEffect], dependencies [[open]]. *)
Definition fetch_effect (props : Props) : M () :=
  if open props then fetchDynamicColumns else ret ().

(** [Object.is] on the two dependency arrays. *)
Definition same_object (a b : option Client) : bool :=
  match a, b with
  | None, None => true
  | Some x, Some y => (client_ref x =? client_ref y)%N
  | _, _ => false
  end.

Definition init_deps_same (old new : Props) : bool :=
  same_object (client old) (client new) && Mode_eqb (mode old) (mode new).

Definition fetch_deps_same (old new : Props) : bool :=
  Bool.eqb (open old) (open new).

(** *** The life of one mounted component *)

(** A mounted instance: the props and state of its last committed render. *)
Record Component := { props : Props; state : State }.

(** What can happen to a mounted instance. *)
Inductive input :=
| Render (new_props : Props) (env : Env)     (* the parent renders it again *)
| Change (field : jsstr) (event : ChangeEvent)
| DynamicFieldChange (columnName : jsstr) (value : jsval)
| CustomFieldsSave (fields : obj)
| DocumentsSave (documents : obj)
| DeleteCustomField (fieldName : jsstr)
| DeleteDocument (docName : jsstr)
| Preview (url : jsval)
| ManageCustomFields
| CloseCustomFields
| ManageDocuments
| CloseDocuments
| Cancel
| Submit
| CloseValidationError                       (* dismissal or the 6000 ms timer *)
| FetchSettled (settled : list ColumnMetadata + jsval).

(** Effects that run after a render with [new] props replacing [old]. *)
Definition effects_after (old new : Props) (env : Env) : M () :=
  (if init_deps_same old new then ret () else init_effect new env) >>
  (if fetch_deps_same old new then ret () else fetch_effect new).

(** The computation an input runs. *)
Definition react (c : Component) (i : input) : M () :=
  match i with
  | Render new_props env => effects_after (props c) new_props env
  | Change field event => handleChange (state c) field event
  | DynamicFieldChange columnName value => handleDynamicFieldChange columnName value
  | CustomFieldsSave fields => handleCustomFieldsSave fields
  | DocumentsSave documents => handleDocumentsSave documents
  | DeleteCustomField fieldName => handleDeleteCustomField (state c) fieldName
  | DeleteDocument docName => handleDeleteDocument (state c) docName
  | Preview url => perform (window_open url (js "_blank"))
  | ManageCustomFields => perform (setCustomFieldsOpen true)
  | CloseCustomFields => perform (setCustomFieldsOpen false)
  | ManageDocuments => perform (setDocumentsOpen true)
  | CloseDocuments => perform (setDocumentsOpen false)
  | Cancel => perform onClose
  | Submit => handleSubmit (props c) (state c)
  | CloseValidationError => handleCloseValidationError
  | FetchSettled settled => fetchDynamicColumns_settled settled
  end.

Definition next_props (c : Component) (i : input) : Props :=
  match i with
  | Render new_props _ => new_props
  | _ => props c
  end.

(** One step: run the computation, commit what it queued. *)
Definition step (c : Component) (i : input) : Component * list action :=
  let log := actions (react c i) in
  ({| props := next_props c i; state := commit (state c) log |}, log).

(** Mounting: first render with the initial state, then both effects. *)
Definition mount (p : Props) (env : Env) : Component * list action :=
  let log := actions (init_effect p env >> fetch_effect p) in
  ({| props := p; state := commit initial_state log |}, log).

(** A run from a mounted instance, with everything it did, in order. *)
Fixpoint run (c : Component) (inputs : list input) : Component * list action :=
  match inputs with
  | [] => (c, [])
  | i :: rest =>
      let '(c', log) := step c i in
      let '(c'', log') := run c' rest in
      (c'', log ++ log')
  end.

(** *** Vocabulary of the specification *)

(** The four mandatory fields with their labels, in the order of the form. *)
Definition mandatory : list (jsstr * jsstr) :=
  [ (first_name, js "First Name");
    (last_name, js "Last Name");
    (primary_email, js "Primary Email");
    (primary_phone, js "Primary Phone") ].

(** A field holds text, or nothing at all. *)
Definition is_text (v : jsval) : bool :=
  match v with
  | VUndef | VNull | VStr _ => true
  | VBool _ | VNum _ | VObj _ => false
  end.

(** A field is empty: absent, or text made of white space only. *)
Definition is_blank (v : jsval) : bool :=
  match v with
  | VUndef | VNull => true
  | VStr s => forallb is_whitespace s
  | VBool _ | VNum _ | VObj _ => false
  end.

(** A field is filled in: text that is not empty once trimmed. *)
Definition is_filled (v : jsval) : Prop := ∃ s, v = VStr s ∧ trim s ≠ [].

(** Labels of the mandatory fields that are empty in a record. *)
Definition missing_labels (r : obj) : list jsstr :=
  snd <$> List.filter (λ kl, is_blank (get r kl.1)) mandatory.

Definition is_onSave (a : action) : bool :=
  match a with onSave _ => true | _ => false end.

Definition is_setValidationError (a : action) : bool :=
  match a with setValidationError _ => true | _ => false end.

Definition is_getColumnMetadata (a : action) : bool :=
  match a with getColumnMetadata => true | _ => false end.

(** The sub-map a record holds under a property: the object stored there,
    or the empty map when the property is absent, [undefined] or [null]. *)
Definition held_submap (r : obj) (key : jsstr) (m : obj) : Prop :=
  get r key = VObj m
  ∨ ((get r key = VUndef ∨ get r key = VNull) ∧ m = ∅).


(** An input that leaves the dependencies [[client, mode]] of the
    initialization effect as they are in [p]. *)
Definition keeps_session (p : Props) (i : input) : Prop :=
  match i with
  | Render new_props _ => init_deps_same p new_props = true
  | _ => True
  end.

(** An input that is not the arrival of fetched columns. *)
Definition not_columns_arrival (i : input) : Prop :=
  match i with
  | FetchSettled (inl _) => False
  | _ => True
  end.

(** An input that does not turn [open] from false to true. *)
Definition not_opening (p : Props) (i : input) : Prop :=
  match i with
  | Render new_props _ => open p = false → open new_props = false
  | _ => True
  end.

(** No character of the string is the underscore. *)
Fixpoint underscore_free (s : string) : Prop :=
  match s with
  | EmptyString => True
  | String c s' => c ≠ "_"%char ∧ underscore_free s'
  end.

(** *** Sample forms *)

(** A form in which only the first name was typed in. *)
Definition only_first_name : State := {|
  formData := <[first_name := VStr (js "Ada")]>
              (<[last_name := VStr (js "  ")]>
              (<[primary_phone := VStr []]> default_form));
  customFieldsOpen := false;
  documentsOpen := false;
  tempClientId := js "temp_1730000000000_k3j9x0q2a";
  dynamicColumns := [];
  validationError := [];
  showValidationError := false
|}.

(** A form with the four mandatory fields typed in, next to other values. *)
Definition filled_form : obj :=
  <[first_name := VStr (js " Ada ")]>
  (<[last_name := VStr (js "Lovelace")]>
  (<[primary_email := VStr (js "ada@example.org")]>
  (<[primary_phone := VStr (js "555 0100")]>
  (<[is_active := VBool false]>
  (<[user_defined_fields := VObj {[ js "nickname" := VStr (js "AAL") ]}]>
   default_form))))).

Definition filled_state : State := {|
  formData := filled_form;
  customFieldsOpen := false;
  documentsOpen := false;
  tempClientId := js "temp_1730000000000_k3j9x0q2a";
  dynamicColumns := [];
  validationError := [];
  showValidationError := false
|}.

(** *** Sample clients and environments *)

Definition sample_env : Env :=
  {| Date_now := 1730000000000; Math_random_base36 := js "0.k3j9x0q2a7f" |}.

Definition later_env : Env :=
  {| Date_now := 1730000004321; Math_random_base36 := js "0.8zq41mmc0v" |}.

(** A stored client with identifier 42. *)
Definition stored_client : Client :=
  {| client_ref := 1;
     client_fields := <[prop_id := VNum 42]> filled_form |}.


Definition sample_column : ColumnMetadata :=
  {| column_id := VNum 7; column_name := js "referral_source" |}.

(** The create dialog, open and closed. *)
Definition create_open : Props := {| open := true; client := None; mode := Create |}.
Definition create_closed : Props := {| open := false; client := None; mode := Create |}.

Definition third_env : Env :=
  {| Date_now := 1730000009999; Math_random_base36 := js "0.c07yhh2p9d1" |}.

(** A rejected fetch. *)
Definition network_error : jsval :=
  VObj {[ js "message" := VStr (js "Network Error") ]}.

(** *** More of the render *)
Section RenderMore.
Context (props : Props) (st : State).

(** The [error] prop of the input of a mandatory field:
    [mode === "create" && showValidationError && !formData.<field>?.trim()];
    [&&] evaluates its right operand only when the left one holds. *)
Definition field_error (field : jsstr) : M bool :=
  if Mode_eqb (mode props) Create then
    if showValidationError st then is_missing st field else ret false
  else ret false.

(** The [helperText] prop of the same input. *)
Definition field_helperText (field : jsstr) : M jsstr :=
  let! flagged := field_error field in
  ret (if flagged then js "This field is required" else []).

(** The [checked] prop of the active switch: [formData.is_active ?? true]. *)
Definition active_switch_checked : jsval :=
  nullish_else (get (formData st) is_active) (VBool true).

(** One [<DynamicFieldRenderer>] per stored column, with the [value] prop
    [formData[column.column_name]]. *)
Definition render_dynamic_fields : list (ColumnMetadata * jsval) :=
  (λ column, (column, get (formData st) (column_name column)))
  <$> dynamicColumns st.

(** The test that chooses between the list of custom fields and the text
    "No custom fields added":
    [formData.user_defined_fields && Object.keys(...).length > 0]. *)
Definition custom_fields_listed : bool :=
  truthy (get (formData st) user_defined_fields)
  && (0 <? size (own_properties (get (formData st) user_defined_fields)))%nat.

(** The same test for the list of documents. *)
Definition documents_listed : bool :=
  truthy (get (formData st) client_documents)
  && (0 <? size (own_properties (get (formData st) client_documents)))%nat.

End RenderMore.

(** *** Vocabulary of the further properties *)

(** How often [open] turns from false to true along the inputs. *)
Fixpoint count_openings (was_open : bool) (inputs : list input) : nat :=
  match inputs with
  | [] => 0
  | Render new_props _ :: rest =>
      ((if negb was_open && open new_props then 1 else 0)
       + count_openings (open new_props) rest)%nat
  | _ :: rest => count_openings was_open rest
  end.

(** An input that is no edit of the property [k] of the held record and no
    new initialization. *)
Definition leaves_key (p : Props) (k : jsstr) (i : input) : Prop :=
  match i with
  | Render new_props _ => init_deps_same p new_props = true
  | Change field _ => field ≠ k
  | DynamicFieldChange columnName _ => columnName ≠ k
  | CustomFieldsSave _ | DeleteCustomField _ => k ≠ user_defined_fields
  | DocumentsSave _ | DeleteDocument _ => k ≠ client_documents
  | _ => True
  end.

(** An input that edits nothing and keeps the session. *)
Definition leaves_record (p : Props) (i : input) : Prop :=
  match i with
  | Render new_props _ => init_deps_same p new_props = true
  | Change _ _ | DynamicFieldChange _ _ | CustomFieldsSave _ | DocumentsSave _
  | DeleteCustomField _ | DeleteDocument _ => False
  | _ => True
  end.

(** Whenever the error notice is shown, its text is the fixed sentence
    followed by some of the four labels. *)
Definition notice_well_formed (st : State) : Prop :=
  showValidationError st = true →
  ∃ labels : list jsstr,
    labels ≠ [] ∧ sublist labels (snd <$> mandatory)
    ∧ validationError st
      = js "Please fill the following mandatory fields: " ++ join (js ", ") labels.

(** The columns delivered by the last fetch that succeeded among the
    inputs, if any did. *)
Fixpoint last_arrival (inputs : list input) : option (list ColumnMetadata) :=
  match inputs with
  | [] => None
  | i :: rest =>
      match last_arrival rest, i with
      | Some columns, _ => Some columns
      | None, FetchSettled (inl columns) => Some columns
      | None, _ => None
      end
  end.

(** An input that renders with another client or mode, if it renders. *)
Definition same_client_and_mode (p : Props) (i : input) : Prop :=
  match i with
  | Render new_props _ => client new_props = client p ∧ mode new_props = mode p
  | _ => True
  end.

(** The props the render passes to [<CustomFieldsDialog>]; its [onSave] is
    [handleCustomFieldsSave]. *)
Record CustomFieldsDialogProps := {
  cf_open : bool;
  cf_fields : jsval
}.

Definition render_CustomFieldsDialog (st : State) : CustomFieldsDialogProps := {|
  cf_open := customFieldsOpen st;
  cf_fields := or_else (get (formData st) user_defined_fields) (VObj ∅)
|}.

Definition is_onClose (a : action) : bool :=
  match a with onClose => true | _ => false end.

(** A form in whose first-name property a number was stored. *)
Definition number_in_first_name : State := {|
  formData := <[first_name := VNum 5]> filled_form;
  customFieldsOpen := false;
  documentsOpen := false;
  tempClientId := js "temp_1730000000000_k3j9x0q2a";
  dynamicColumns := [sample_column];
  validationError := [];
  showValidationError := false
|}.

Definition text_event (s : string) : ChangeEvent :=
  {| target_type := js "text"; target_checked := false; target_value := js s |}.

(** * Properties *)

(** ** Strings *)

Lemma trimStart_nil (s : jsstr) :
  trimStart s = [] ↔ forallb is_whitespace s = true.
Proof.
  induction s as [|c s IH]; simpl; [done|].
  destruct (is_whitespace c); simpl; [exact IH|]. split; discriminate.
Qed.

Lemma trimStart_head (s : jsstr) (c : N) (t : jsstr) :
  trimStart s = c :: t → is_whitespace c = false.
Proof.
  induction s as [|d s IH]; simpl; [discriminate|].
  destruct (is_whitespace d) eqn:Hd; [exact IH|]. by intros [= <- _].
Qed.

Lemma forallb_reverse (f : N → bool) (s : jsstr) :
  forallb f (reverse s) = forallb f s.
Proof.
  induction s as [|c s IH]; [done|].
  rewrite reverse_cons, forallb_app, IH. simpl. destruct (f c), (forallb f s); done.
Qed.

(** Trimming leaves nothing exactly when the string is white space only. *)
Lemma trim_nil (s : jsstr) :
  trim s = [] ↔ forallb is_whitespace s = true.
Proof.
  unfold trim, trimEnd. split.
  - intros H. apply trimStart_nil.
    destruct (trimStart s) as [|c t] eqn:Hs; [done|exfalso].
    apply (f_equal reverse) in H. rewrite reverse_involutive in H.
    change (reverse []) with (@nil N) in H.
    apply trimStart_nil in H. rewrite forallb_reverse in H. simpl in H.
    by rewrite (trimStart_head _ _ _ Hs) in H.
  - intros H. apply trimStart_nil in H. by rewrite H.
Qed.

Lemma trim_blank (s : jsstr) :
  negb (truthy (VStr (trim s))) = forallb is_whitespace s.
Proof.
  simpl. rewrite Bool.negb_involutive.
  destruct (forallb is_whitespace s) eqn:H.
  - apply trim_nil in H. by rewrite H.
  - apply bool_decide_eq_false. intros Ht. apply trim_nil in Ht. congruence.
Qed.

Example trim_example :
  trim (js "  Ada Lovelace " ++ [0x00A0; 0x2003]%N) = js "Ada Lovelace".
Proof. reflexivity. Qed.

Example join_example :
  join (js ", ") [js "First Name"; js "Primary Phone"] = js "First Name, Primary Phone".
Proof. reflexivity. Qed.

(** ** Validation and submit *)

(** On a field that holds text or nothing, the test of
    [validateMandatoryFields] does not throw and says whether it is empty. *)
Lemma is_missing_text (st : State) (field : jsstr) :
  is_text (get (formData st) field) = true →
  is_missing st field = ([], Returned (is_blank (get (formData st) field))).
Proof.
  unfold is_missing. destruct (get (formData st) field) eqn:E; try done.
  intros _. unfold bind, optional_trim, ret. by rewrite trim_blank.
Qed.

(** On any other value the optional call [?.trim()] is a call of something
    that is not a function, and the handler stops there. *)
Lemma is_missing_not_text (st : State) (field : jsstr) :
  is_text (get (formData st) field) = false →
  is_missing st field = ([], Threw (js "TypeError")).
Proof.
  unfold is_missing. by destruct (get (formData st) field).
Qed.

Lemma is_filled_not_blank (v : jsval) :
  is_filled v → is_text v = true ∧ is_blank v = false.
Proof.
  intros (s & -> & Hs). split; [done|]. simpl.
  destruct (forallb is_whitespace s) eqn:H; [|done].
  by apply trim_nil in H.
Qed.

(** What [validateMandatoryFields] does on a record whose mandatory fields
    hold text or nothing. *)
Lemma validateMandatoryFields_text (st : State) :
  Forall (λ kl, is_text (get (formData st) kl.1) = true) mandatory →
  validateMandatoryFields st =
    match missing_labels (formData st) with
    | [] => ([], Returned true)
    | labels =>
        ([setValidationError
            (js "Please fill the following mandatory fields: "
             ++ join (js ", ") labels);
          setShowValidationError true], Returned false)
    end.
Proof.
  intros Htext. unfold mandatory in Htext.
  repeat (apply Forall_cons in Htext; destruct Htext as [? Htext]).
  clear Htext. cbn [fst] in *.
  unfold validateMandatoryFields, missing_labels, mandatory.
  rewrite !is_missing_text by done. cbn [List.filter fst].
  destruct (is_blank (get (formData st) first_name)),
           (is_blank (get (formData st) last_name)),
           (is_blank (get (formData st) primary_email)),
           (is_blank (get (formData st) primary_phone)); reflexivity.
Qed.

(** C1: a create-mode submit with at least one mandatory field empty
    (absent, or white space only) queues exactly one error message, which
    lists the labels of the empty fields and only those, in the order
    First Name, Last Name, Primary Email, Primary Phone, shows it, and does
    not call the save callback. *)
Theorem create_submit_missing_fields (p : Props) (st : State) :
  mode p = Create →
  Forall (λ kl, is_text (get (formData st) kl.1) = true) mandatory →
  missing_labels (formData st) ≠ [] →
  let message := js "Please fill the following mandatory fields: "
                 ++ join (js ", ") (missing_labels (formData st)) in
  handleSubmit p st
    = ([setValidationError message; setShowValidationError true], Returned ())
  ∧ List.filter is_onSave (actions (handleSubmit p st)) = []
  ∧ List.filter is_setValidationError (actions (handleSubmit p st))
    = [setValidationError message]
  ∧ validationError (commit st (actions (handleSubmit p st))) = message
  ∧ showValidationError (commit st (actions (handleSubmit p st))) = true
  ∧ formData (commit st (actions (handleSubmit p st))) = formData st.
Proof.
  intros Hmode Htext Hmiss message.
  assert (handleSubmit p st
    = ([setValidationError message; setShowValidationError true], Returned ()))
    as Hrun.
  { subst message. unfold handleSubmit.
    rewrite Hmode, (validateMandatoryFields_text st Htext).
    by destruct (missing_labels (formData st)). }
  rewrite Hrun. by repeat split.
Qed.

Lemma create_submit_missing_fields_witness :
  handleSubmit {| open := true; client := None; mode := Create |} only_first_name
  = ([setValidationError
        (js "Please fill the following mandatory fields: Last Name, Primary Email, Primary Phone");
      setShowValidationError true], Returned ()).
Proof.
  destruct (create_submit_missing_fields
              {| open := true; client := None; mode := Create |} only_first_name)
    as [H _]; [reflexivity | repeat constructor | vm_compute; discriminate |].
  rewrite H. reflexivity.
Defined.

(** C2: a create-mode submit with the four mandatory fields filled in calls
    the save callback exactly once, with the held record as it is (every
    property of it, mandatory or not), and queues no state update: the
    state after the submit is the state before it. *)
Theorem create_submit_complete (p : Props) (st : State) :
  mode p = Create →
  Forall (λ kl, is_filled (get (formData st) kl.1)) mandatory →
  handleSubmit p st = ([onSave (formData st)], Returned ())
  ∧ List.filter is_onSave (actions (handleSubmit p st)) = [onSave (formData st)]
  ∧ commit st (actions (handleSubmit p st)) = st
  ∧ state (step {| props := p; state := st |} Submit).1 = st.
Proof.
  intros Hmode Hfilled.
  assert (handleSubmit p st = ([onSave (formData st)], Returned ())) as Hrun.
  { unfold handleSubmit. rewrite Hmode, validateMandatoryFields_text.
    - unfold missing_labels, mandatory in *.
      apply Forall_cons in Hfilled as [[_ H1]%is_filled_not_blank Hfilled].
      apply Forall_cons in Hfilled as [[_ H2]%is_filled_not_blank Hfilled].
      apply Forall_cons in Hfilled as [[_ H3]%is_filled_not_blank Hfilled].
      apply Forall_cons in Hfilled as [[_ H4]%is_filled_not_blank _].
      cbn [List.filter fst] in *. by rewrite H1, H2, H3, H4.
    - eapply Forall_impl; [exact Hfilled|]. intros kl Hkl.
      by apply is_filled_not_blank in Hkl as [? _]. }
  unfold step. cbn [react props state fst]. rewrite Hrun. by repeat split.
Qed.

Lemma filled_form_is_filled :
  Forall (λ kl, is_filled (get filled_form kl.1)) mandatory.
Proof.
  repeat constructor; eexists; (split; [reflexivity | vm_compute; discriminate]).
Defined.

Lemma create_submit_complete_witness :
  handleSubmit {| open := true; client := None; mode := Create |} filled_state
  = ([onSave filled_form], Returned ()).
Proof.
  exact (proj1 (create_submit_complete
                  {| open := true; client := None; mode := Create |}
                  filled_state eq_refl filled_form_is_filled)).
Defined.

(** C3: an edit-mode submit never validates: whatever the held record is,
    the save callback is called once with it and nothing else happens; so
    also when the four mandatory fields are absent or empty. *)
Theorem edit_submit_forwards (o : bool) (c : option Client) (st : State) :
  let p := {| open := o; client := c; mode := Edit |} in
  handleSubmit p st = ([onSave (formData st)], Returned ())
  ∧ List.filter is_setValidationError (actions (handleSubmit p st)) = []
  ∧ commit st (actions (handleSubmit p st)) = st
  ∧ step {| props := p; state := st |} Submit
    = ({| props := p; state := st |}, [onSave (formData st)]).
Proof. by repeat split. Qed.

(** In edit mode a record without any of the mandatory fields is saved. *)
Example edit_submit_empty_record (c : option Client) :
  missing_labels ∅
    = [js "First Name"; js "Last Name"; js "Primary Email"; js "Primary Phone"]
  ∧ actions (handleSubmit {| open := true; client := c; mode := Edit |}
                          initial_state) = [onSave ∅].
Proof. by split. Qed.

(** ** Initialization *)

Lemma default_form_lookup (k : jsstr) :
  default_form !! k
  = if bool_decide (k = case_status) then Some (VStr (js "Active")) else None.
Proof.
  unfold default_form. case_bool_decide as Hk.
  - subst k. apply lookup_singleton_eq.
  - by apply lookup_singleton_ne.
Qed.

(** C4: after mounting in edit mode with a client record, the held record is
    that record (and no temporary identifier was made); after mounting in
    create mode the held record has the single property
    [case_status = "Active"] and the temporary identifier is the freshly
    built [temp_<Date.now()>_<nine base-36 digits>].  The same holds each
    time the initialization effect runs again, from any state. *)
Theorem initialization (o : bool) (env : Env) (st : State) :
  (∀ c : Client,
     let p := {| open := o; client := Some c; mode := Edit |} in
     formData (state (mount p env).1) = client_fields c
     ∧ tempClientId (state (mount p env).1) = []
     ∧ formData (commit st (actions (init_effect p env))) = client_fields c
     ∧ tempClientId (commit st (actions (init_effect p env))) = tempClientId st)
  ∧ (∀ oc : option Client,
     let p := {| open := o; client := oc; mode := Create |} in
     formData (state (mount p env).1) = default_form
     ∧ tempClientId (state (mount p env).1) = make_temp_id env
     ∧ formData (commit st (actions (init_effect p env))) = default_form
     ∧ tempClientId (commit st (actions (init_effect p env))) = make_temp_id env)
  ∧ (∀ k : jsstr,
     default_form !! k
     = if bool_decide (k = case_status) then Some (VStr (js "Active")) else None)
  ∧ make_temp_id env
    = js "temp_" ++ js (pretty (Date_now env)) ++ js "_"
      ++ take 9 (drop 2 (Math_random_base36 env)).
Proof.
  split; [|split; [|split]].
  - intros c p. unfold mount, p. cbn. by destruct o.
  - intros oc p. unfold mount, p. cbn. by destruct oc, o.
  - apply default_form_lookup.
  - reflexivity.
Qed.

Example make_temp_id_example :
  make_temp_id {| Date_now := 1730000000000;
                  Math_random_base36 := js "0.k3j9x0q2a7f" |}
  = js "temp_1730000000000_k3j9x0q2a".
Proof. reflexivity. Qed.

(** C10: in edit mode without a client record the initialization effect
    does what it does in create mode: it makes a new temporary identifier,
    [temp_<Date.now()>_<nine base-36 digits>], and sets the held record to
    the default, whose single property is [case_status = "Active"]. *)
Theorem edit_without_client_initializes_as_create (o : bool) (env : Env) (st : State) :
  let p := {| open := o; client := None; mode := Edit |} in
  init_effect p env
  = init_effect {| open := o; client := None; mode := Create |} env
  ∧ actions (init_effect p env)
    = [setTempClientId (make_temp_id env); setFormData default_form]
  ∧ formData (commit st (actions (init_effect p env))) = default_form
  ∧ tempClientId (commit st (actions (init_effect p env))) = make_temp_id env
  ∧ state (mount p env).1
    = state (mount {| open := o; client := None; mode := Create |} env).1
  ∧ formData (state (mount p env).1) = default_form
  ∧ tempClientId (state (mount p env).1) = make_temp_id env
  ∧ (∀ k : jsstr,
       formData (commit st (actions (init_effect p env))) !! k
       = if bool_decide (k = case_status) then Some (VStr (js "Active")) else None)
  ∧ (∀ k : jsstr,
       formData (state (mount p env).1) !! k
       = if bool_decide (k = case_status) then Some (VStr (js "Active")) else None)
  ∧ tempClientId (commit st (actions (init_effect p env)))
    = js "temp_" ++ js (pretty (Date_now env)) ++ js "_"
      ++ take 9 (drop 2 (Math_random_base36 env))
  ∧ tempClientId (state (mount p env).1)
    = js "temp_" ++ js (pretty (Date_now env)) ++ js "_"
      ++ take 9 (drop 2 (Math_random_base36 env)).
Proof.
  intros p.
  assert (formData (state (mount p env).1) = default_form) as Hmount
    by (by destruct o).
  repeat split; try (by destruct o).
  - intros k. apply default_form_lookup.
  - intros k. rewrite Hmount. apply default_form_lookup.
Qed.

(** ** Field edits *)

(** C8: a field edit queues one update, which sets the named property of the
    held record to the checked flag for a checkbox input and to the text
    otherwise; every other property and every other state cell stays as it
    was.  The active switch is a checkbox input: toggling it sets
    [is_active] and nothing else. *)
Theorem field_edit_frame (st : State) (field : jsstr) (event : ChangeEvent) :
  let value := if bool_decide (target_type event = js "checkbox")
               then VBool (target_checked event)
               else VStr (target_value event) in
  let st' := commit st (actions (handleChange st field event)) in
  actions (handleChange st field event)
  = [setFormData (<[field := value]> (formData st))]
  ∧ formData st' !! field = Some value
  ∧ (∀ k : jsstr, k ≠ field → formData st' !! k = formData st !! k)
  ∧ (customFieldsOpen st', documentsOpen st', tempClientId st',
     dynamicColumns st', validationError st', showValidationError st')
    = (customFieldsOpen st, documentsOpen st, tempClientId st,
       dynamicColumns st, validationError st, showValidationError st)
  ∧ (∀ (b : bool) (v : jsstr),
       let toggle := {| target_type := js "checkbox"; target_checked := b;
                        target_value := v |} in
       let st'' := commit st (actions (handleChange st is_active toggle)) in
       formData st'' = <[is_active := VBool b]> (formData st)
       ∧ ∀ k : jsstr, k ≠ is_active → formData st'' !! k = formData st !! k).
Proof.
  intros value st'. repeat split.
  - apply lookup_insert_eq.
  - intros k Hk. by apply lookup_insert_ne.
  - intros k Hk. by apply lookup_insert_ne.
Qed.

Lemma field_edit_frame_witness :
  let toggle := {| target_type := js "checkbox"; target_checked := true;
                   target_value := js "on" |} in
  let st' := commit filled_state (actions (handleChange filled_state is_active toggle)) in
  formData st' !! is_active = Some (VBool true)
  ∧ formData st' !! first_name = formData filled_state !! first_name.
Proof.
  intros toggle st'.
  destruct (field_edit_frame filled_state is_active toggle) as (_ & H1 & H2 & _).
  split; [exact H1 | apply H2; vm_compute; discriminate].
Defined.

(** ** Merging what the sub-dialogs return *)

Lemma held_submap_own_properties (r : obj) (key : jsstr) (m : obj) :
  held_submap r key m →
  own_properties (or_else (get r key) (VObj ∅)) = m.
Proof. by intros [-> | [[-> | ->] ->]]. Qed.

Lemma merged_lookup (fields m : obj) (k : jsstr) :
  spread2 m fields !! k
  = match fields !! k with Some v => Some v | None => m !! k end.
Proof.
  unfold spread2. rewrite lookup_union. by destruct (fields !! k), (m !! k).
Qed.

Lemma merge_three_disjoint (m f1 f2 : obj) :
  m ##ₘ f1 → m ##ₘ f2 → f1 ##ₘ f2 →
  spread2 (spread2 m f1) f2 = m ∪ f1 ∪ f2.
Proof.
  intros H1 H2 H3. unfold spread2.
  rewrite (map_union_comm f1 m) by done.
  apply map_union_comm. by apply map_disjoint_union_r.
Qed.

Section Merge.
(** Both save handlers have the same shape; [key] is the property they
    write and [merge] their updater. *)
Variable key : jsstr.
Variable merge : obj → obj → obj.
Hypothesis merge_unfold : ∀ fields prev : obj,
  merge fields prev
  = <[key := VObj (spread2 (own_properties (or_else (get prev key) (VObj ∅)))
                           fields)]> prev.

Lemma merge_held (fields prev m : obj) :
  held_submap prev key m →
  held_submap (merge fields prev) key (spread2 m fields).
Proof.
  intros H. left. unfold get. rewrite merge_unfold, lookup_insert_eq.
  by rewrite (held_submap_own_properties _ _ _ H).
Qed.

Lemma merge_additive (prev m f1 f2 : obj) :
  held_submap prev key m →
  (∃ m1, merge f1 prev !! key = Some (VObj m1)
         ∧ (∀ k v, f1 !! k = Some v → m1 !! k = Some v)
         ∧ (∀ k, f1 !! k = None → m1 !! k = m !! k))
  ∧ (∀ k, k ≠ key → merge f1 prev !! k = prev !! k)
  ∧ (m ##ₘ f1 → m ##ₘ f2 → f1 ##ₘ f2 →
     merge f2 (merge f1 prev) !! key = Some (VObj (m ∪ f1 ∪ f2))
     ∧ ∀ k v, (m ∪ f1 ∪ f2) !! k = Some v
              ↔ m !! k = Some v ∨ f1 !! k = Some v ∨ f2 !! k = Some v).
Proof.
  intros Hheld. split; [|split].
  - exists (spread2 m f1). split; [|split].
    + rewrite merge_unfold, lookup_insert_eq.
      by rewrite (held_submap_own_properties _ _ _ Hheld).
    + intros k v Hk. by rewrite merged_lookup, Hk.
    + intros k Hk. by rewrite merged_lookup, Hk.
  - intros k Hk. by rewrite merge_unfold, lookup_insert_ne.
  - intros H1 H2 H3. split.
    + pose proof (merge_held f1 _ _ Hheld) as H.
      rewrite merge_unfold, lookup_insert_eq.
      by rewrite (held_submap_own_properties _ _ _ H), merge_three_disjoint.
    + intros k v. rewrite !lookup_union_Some; [tauto | done |].
      by apply map_disjoint_union_l.
Qed.

End Merge.

(** C7: saving from the custom-fields dialog, and likewise from the
    documents dialog, merges the returned map into the held sub-map and
    touches no other property of the record: each returned key is set to
    the returned value, each key of the sub-map that was not returned keeps
    its value, and two saves of maps whose keys are disjoint from each
    other and from the sub-map leave the union of the three. *)
Theorem sub_dialog_save_merges (st : State) (m f1 f2 : obj) :
  (formData (commit st (actions (handleCustomFieldsSave f1)))
   = merge_user_defined_fields f1 (formData st)
   ∧ (held_submap (formData st) user_defined_fields m →
      let r1 := merge_user_defined_fields f1 (formData st) in
      let r2 := merge_user_defined_fields f2 r1 in
      (∃ m1, r1 !! user_defined_fields = Some (VObj m1)
             ∧ (∀ k v, f1 !! k = Some v → m1 !! k = Some v)
             ∧ (∀ k, f1 !! k = None → m1 !! k = m !! k))
      ∧ (∀ k, k ≠ user_defined_fields → r1 !! k = formData st !! k)
      ∧ (m ##ₘ f1 → m ##ₘ f2 → f1 ##ₘ f2 →
         r2 !! user_defined_fields = Some (VObj (m ∪ f1 ∪ f2))
         ∧ ∀ k v, (m ∪ f1 ∪ f2) !! k = Some v
                  ↔ m !! k = Some v ∨ f1 !! k = Some v ∨ f2 !! k = Some v)))
  ∧ (formData (commit st (actions (handleDocumentsSave f1)))
     = merge_client_documents f1 (formData st)
     ∧ (held_submap (formData st) client_documents m →
        let r1 := merge_client_documents f1 (formData st) in
        let r2 := merge_client_documents f2 r1 in
        (∃ m1, r1 !! client_documents = Some (VObj m1)
               ∧ (∀ k v, f1 !! k = Some v → m1 !! k = Some v)
               ∧ (∀ k, f1 !! k = None → m1 !! k = m !! k))
        ∧ (∀ k, k ≠ client_documents → r1 !! k = formData st !! k)
        ∧ (m ##ₘ f1 → m ##ₘ f2 → f1 ##ₘ f2 →
           r2 !! client_documents = Some (VObj (m ∪ f1 ∪ f2))
           ∧ ∀ k v, (m ∪ f1 ∪ f2) !! k = Some v
                    ↔ m !! k = Some v ∨ f1 !! k = Some v ∨ f2 !! k = Some v))).
Proof.
  split; (split; [reflexivity|]); intros Hheld.
  - by apply (merge_additive user_defined_fields merge_user_defined_fields).
  - by apply (merge_additive client_documents merge_client_documents).
Qed.

Lemma sub_dialog_save_merges_witness :
  let m : obj := {[ js "nickname" := VStr (js "AAL") ]} in
  let f1 : obj := {[ js "title" := VStr (js "Countess") ]} in
  let f2 : obj := {[ js "born" := VStr (js "1815") ]} in
  merge_user_defined_fields f2 (merge_user_defined_fields f1 filled_form)
    !! user_defined_fields = Some (VObj (m ∪ f1 ∪ f2))
  ∧ merge_client_documents f2 (merge_client_documents f1 filled_form)
    !! client_documents = Some (VObj (∅ ∪ f1 ∪ f2)).
Proof.
  intros m f1 f2.
  destruct (sub_dialog_save_merges filled_state m f1 f2)
    as [[_ Hfields] _].
  destruct (sub_dialog_save_merges filled_state ∅ f1 f2)
    as [_ [_ Hdocs]].
  split.
  - apply Hfields.
    + left. reflexivity.
    + apply map_disjoint_singleton_r_2. reflexivity.
    + apply map_disjoint_singleton_r_2. reflexivity.
    + apply map_disjoint_singleton_r_2. reflexivity.
  - apply Hdocs.
    + right. split; [left|]; reflexivity.
    + apply map_disjoint_empty_l.
    + apply map_disjoint_empty_l.
    + apply map_disjoint_singleton_r_2. reflexivity.
Defined.

(** A save whose keys overlap the held sub-map overwrites those keys only. *)
Example overlapping_save :
  let returned : obj := {[ js "nickname" := VStr (js "Ada");
                           js "title" := VStr (js "Countess") ]} in
  let m : obj := {[ js "nickname" := VStr (js "AAL"); js "born" := VStr (js "1815") ]} in
  merge_user_defined_fields returned {[ user_defined_fields := VObj m ]}
  = {[ user_defined_fields :=
         VObj {[ js "nickname" := VStr (js "Ada"); js "born" := VStr (js "1815");
                 js "title" := VStr (js "Countess") ]} ]}.
Proof.
  vm_compute. reflexivity.
Qed.

(** ** The identifier handed to the documents dialog *)




(** ** The temporary identifier *)

Lemma js_inj (s t : string) : js s = js t → s = t.
Proof.
  unfold js. intros H.
  rewrite <- (string_of_list_ascii_of_string s), <- (string_of_list_ascii_of_string t).
  f_equal. revert H. generalize (list_ascii_of_string t).
  induction (list_ascii_of_string s) as [|a l IH]; intros [|b l']; try done.
  rewrite !fmap_cons. intros [= Hab Hl]. f_equal; [|by apply IH].
  by rewrite <- (ascii_N_embedding a), <- (ascii_N_embedding b), Hab.
Qed.

Lemma underscore_free_js (s : string) : underscore_free s → 95%N ∉ js s.
Proof.
  unfold js. induction s as [|c s IH]; simpl.
  - intros _ H. by apply elem_of_nil in H.
  - intros [Hc Hs] [H | H]%elem_of_cons; [|by apply IH].
    apply Hc. rewrite <- (ascii_N_embedding c), <- H. reflexivity.
Qed.

Lemma pretty_N_go_underscore_free (x : N) :
  ∀ s, underscore_free s → underscore_free (pretty_N_go x s).
Proof.
  pattern x. apply (well_founded_induction N.lt_wf_0). clear x.
  intros x IH s Hs. destruct (decide (x = 0%N)) as [-> | Hx].
  - by rewrite pretty_N_go_0.
  - rewrite pretty_N_go_step by lia. apply IH.
    + apply N.div_lt; lia.
    + split; [|done]. unfold pretty_N_char. by repeat case_match.
Qed.

Lemma pretty_Z_underscore_free (z : Z) : underscore_free (pretty z).
Proof.
  assert (∀ n : N, underscore_free (pretty n)) as HN.
  { intros n. unfold pretty, pretty_N. case_decide; [done|].
    by apply pretty_N_go_underscore_free. }
  destruct z as [|q|q]; [done | apply HN | split; [done | apply HN]].
Qed.

Lemma split_at_separator (sep : N) (l1 l2 r1 r2 : jsstr) :
  sep ∉ l1 → sep ∉ l2 →
  l1 ++ sep :: r1 = l2 ++ sep :: r2 → l1 = l2 ∧ r1 = r2.
Proof.
  revert l2. induction l1 as [|a l1 IH]; intros [|b l2] H1 H2 H; simplify_eq/=.
  - done.
  - exfalso. apply H2. by left.
  - exfalso. apply H1. by left.
  - destruct (IH l2) as [-> ->]; [| |done..].
    + intros ?. apply H1. by right.
    + intros ?. apply H2. by right.
Qed.

(** Two temporary identifiers are equal exactly when they were built from
    the same timestamp and the same nine random digits. *)
Lemma make_temp_id_inj (e1 e2 : Env) :
  make_temp_id e1 = make_temp_id e2
  ↔ Date_now e1 = Date_now e2
    ∧ substr 2 9 (Math_random_base36 e1) = substr 2 9 (Math_random_base36 e2).
Proof.
  unfold make_temp_id, number_to_string. split.
  - intros H. apply app_inv_head in H.
    change (js "_") with [95%N] in H. cbn [app] in H.
    apply split_at_separator in H as [Hnow Hrnd];
      try (apply underscore_free_js, pretty_Z_underscore_free).
    split; [|done]. by apply (inj pretty), js_inj.
  - by intros [-> ->].
Qed.

(** A mandatory field that holds something other than text makes
    [validateMandatoryFields] throw before it has queued anything. *)
Lemma validateMandatoryFields_not_text (st : State) :
  ¬ Forall (λ kl, is_text (get (formData st) kl.1) = true) mandatory →
  validateMandatoryFields st = ([], Threw (js "TypeError")).
Proof.
  intros Hnot. unfold validateMandatoryFields.
  destruct (is_text (get (formData st) first_name)) eqn:H1;
    [rewrite (is_missing_text _ _ H1) | by rewrite (is_missing_not_text _ _ H1)].
  destruct (is_text (get (formData st) last_name)) eqn:H2;
    [rewrite (is_missing_text _ _ H2) | by rewrite (is_missing_not_text _ _ H2)].
  destruct (is_text (get (formData st) primary_email)) eqn:H3;
    [rewrite (is_missing_text _ _ H3) | by rewrite (is_missing_not_text _ _ H3)].
  destruct (is_text (get (formData st) primary_phone)) eqn:H4;
    [rewrite (is_missing_text _ _ H4) | by rewrite (is_missing_not_text _ _ H4)].
  destruct Hnot. by repeat constructor.
Qed.

(** All a submit can do: nothing, one error message, or one save. *)
Lemma handleSubmit_actions (p : Props) (st : State) :
  actions (handleSubmit p st) = []
  ∨ (∃ message, actions (handleSubmit p st)
                = [setValidationError message; setShowValidationError true])
  ∨ actions (handleSubmit p st) = [onSave (formData st)].
Proof.
  unfold handleSubmit. destruct (mode p); [|by right; right].
  destruct (decide (Forall (λ kl, is_text (get (formData st) kl.1) = true) mandatory))
    as [Htext | Hnot].
  - rewrite (validateMandatoryFields_text _ Htext).
    destruct (missing_labels (formData st)); [by right; right|].
    right; left. by eexists.
  - rewrite (validateMandatoryFields_not_text _ Hnot). by left.
Qed.

Lemma init_deps_same_trans (p q r : Props) :
  init_deps_same p q = true → init_deps_same p r = true →
  init_deps_same q r = true.
Proof.
  unfold init_deps_same, same_object.
  destruct (client p), (client q), (client r), (mode p), (mode q), (mode r);
    simpl; rewrite ?andb_true_r, ?andb_false_r, ?N.eqb_eq;
    (done || congruence).
Qed.

(** An input that keeps the session leaves the temporary identifier alone. *)
Lemma step_keeps_temp_id (c : Component) (i : input) :
  keeps_session (props c) i →
  tempClientId (state (step c i).1) = tempClientId (state c).
Proof.
  unfold step. cbn [fst state]. destruct i; cbn [react keeps_session]; try done.
  - intros Hsame. unfold effects_after. rewrite Hsame.
    destruct (fetch_deps_same (props c) new_props); [done|].
    unfold fetch_effect. by destruct (open new_props).
  - destruct (handleSubmit_actions (props c) (state c)) as [-> | [[? ->] | ->]]; done.
  - by destruct settled.
Qed.

Lemma run_keeps_temp_id (inputs : list input) :
  ∀ c : Component,
    Forall (keeps_session (props c)) inputs →
    tempClientId (state (run c inputs).1) = tempClientId (state c).
Proof.
  induction inputs as [|i rest IH]; intros c H; [done|].
  apply Forall_cons in H as [Hi Hrest]. cbn [run].
  pose proof (step_keeps_temp_id c i Hi) as Hstep.
  destruct (step c i) as [c' log] eqn:Ec.
  specialize (IH c'). destruct (run c' rest) as [c'' log'] eqn:Er.
  cbn [fst] in *. rewrite IH, Hstep; [done|].
  assert (props c' = next_props c i) as -> by (unfold step in Ec; by injection Ec as <- _).
  eapply Forall_impl; [exact Hrest|]. intros j Hj.
  destruct i; cbn [next_props]; try done.
  destruct j; cbn [keeps_session] in *; try done.
  by eapply init_deps_same_trans.
Qed.

(** C5, as stated, fails: the create dialog is mounted open, closed and
    opened again with the same client and mode, at later times and with
    other random digits; the temporary identifier of the second opening is
    the one of the first. *)
Lemma reopen_keeps_temp_id_counterexample :
  let first := (mount create_open sample_env).1 in
  let second := (run first [Render create_closed later_env;
                            Render create_open third_env]).1 in
  tempClientId (state first) = js "temp_1730000000000_k3j9x0q2a"
  ∧ tempClientId (state second) = js "temp_1730000000000_k3j9x0q2a"
  ∧ ¬ (tempClientId (state second) ≠ tempClientId (state first)).
Proof.
  intros first second.
  assert (tempClientId (state first) = js "temp_1730000000000_k3j9x0q2a") as H1
    by reflexivity.
  assert (tempClientId (state second) = js "temp_1730000000000_k3j9x0q2a") as H2
    by reflexivity.
  split; [done | split; [done|]]. intros H. apply H. by rewrite H1, H2.
Qed.

(** C5, amended: the temporary identifier belongs to the initialization
    effect, whose dependencies are the client and the mode, not [open].
    Through any sequence of events that keeps the client and the mode
    (edits, saves from the sub-dialogs, submits, closing and opening again)
    it stays what it was; a render that changes the client or the mode and
    lands in the create branch replaces it by a newly built one; and two
    built identifiers are equal only when built from the same timestamp and
    the same nine random digits. *)
Theorem temp_id_per_session :
  (∀ (c : Component) (inputs : list input),
     Forall (keeps_session (props c)) inputs →
     tempClientId (state (run c inputs).1) = tempClientId (state c))
  ∧ (∀ (c : Component) (closed reopened : Props) (e1 e2 : Env),
       init_deps_same (props c) closed = true →
       init_deps_same (props c) reopened = true →
       tempClientId (state (run c [Render closed e1; Render reopened e2]).1)
       = tempClientId (state c))
  ∧ (∀ (c : Component) (p : Props) (env : Env),
       init_deps_same (props c) p = false →
       client p = None ∨ mode p = Create →
       tempClientId (state (step c (Render p env)).1) = make_temp_id env)
  ∧ (∀ e1 e2 : Env,
       make_temp_id e1 = make_temp_id e2
       ↔ Date_now e1 = Date_now e2
         ∧ substr 2 9 (Math_random_base36 e1)
           = substr 2 9 (Math_random_base36 e2)).
Proof.
  split; [|split; [|split]].
  - intros c inputs. apply run_keeps_temp_id.
  - intros c closed reopened e1 e2 H1 H2. apply run_keeps_temp_id.
    by repeat constructor.
  - intros c p env Hdeps Hcreate. unfold step. cbn [fst state react].
    unfold effects_after, init_effect, fetch_effect. rewrite Hdeps.
    destruct Hcreate as [-> | ->]; [|destruct (client p)];
      try destruct (mode p);
      by destruct (fetch_deps_same (props c) p), (open p).
  - apply make_temp_id_inj.
Qed.

Lemma temp_id_per_session_witness :
  tempClientId (state (run (mount create_open sample_env).1
                           [Change first_name
                              {| target_type := js "text"; target_checked := false;
                                 target_value := js "Ada" |};
                            Render create_closed later_env;
                            Render create_open third_env;
                            Submit]).1)
  = js "temp_1730000000000_k3j9x0q2a"
  ∧ tempClientId (state (run (mount create_open sample_env).1
                            [Render create_closed later_env;
                             Render create_open third_env]).1)
    = js "temp_1730000000000_k3j9x0q2a"
  ∧ tempClientId (state (step (mount {| open := true;
                                        client := Some stored_client;
                                        mode := Edit |} sample_env).1
                              (Render create_open later_env)).1)
    = js "temp_1730000004321_8zq41mmc0"
  ∧ (make_temp_id sample_env = make_temp_id sample_env).
Proof.
  destruct temp_id_per_session as (Hrun & Hreopen & Hnew & Hinj).
  split; [|split; [|split]].
  - rewrite Hrun; [reflexivity|]. repeat constructor.
  - rewrite Hreopen; reflexivity.
  - rewrite Hnew; [reflexivity | reflexivity | by left].
  - apply Hinj. split; reflexivity.
Defined.

(** ** Fetching the extra columns *)

(** The initialization effect never issues the request. *)
Lemma init_effect_no_request (p : Props) (env : Env) :
  List.filter is_getColumnMetadata (actions (init_effect p env)) = [].
Proof. unfold init_effect. by destruct (client p), (mode p). Qed.

Lemma actions_bind {A B} (m : M A) (k : A → M B) :
  actions (bind m k)
  = match result m with
    | Returned a => actions m ++ actions (k a)
    | Threw _ => actions m
    end.
Proof. destruct m as [log [a|e]]; simpl; [|done]. by destruct (k a). Qed.

Lemma init_effect_returns (p : Props) (env : Env) :
  result (init_effect p env) = Returned ().
Proof. unfold init_effect. by destruct (client p), (mode p). Qed.

Lemma effects_after_requests (old new : Props) (env : Env) :
  List.filter is_getColumnMetadata (actions (effects_after old new env))
  = if negb (open old) && open new then [getColumnMetadata] else [].
Proof.
  unfold effects_after. rewrite actions_bind.
  destruct (init_deps_same old new).
  - cbn [result ret snd actions fst app]. unfold fetch_deps_same, fetch_effect.
    by destruct (open old), (open new).
  - rewrite init_effect_returns, List.filter_app, init_effect_no_request.
    unfold fetch_deps_same, fetch_effect. by destruct (open old), (open new).
Qed.

(** Only the arrival of fetched columns changes the stored columns. *)
Lemma step_keeps_columns (c : Component) (i : input) :
  not_columns_arrival i →
  dynamicColumns (state (step c i).1) = dynamicColumns (state c).
Proof.
  unfold step. cbn [fst state]. destruct i; cbn [react not_columns_arrival]; try done.
  - intros _. unfold effects_after, init_effect, fetch_effect.
    by destruct (init_deps_same (props c) new_props), (client new_props),
         (mode new_props), (fetch_deps_same (props c) new_props), (open new_props).
  - destruct (handleSubmit_actions (props c) (state c)) as [-> | [[? ->] | ->]]; done.
  - by destruct settled.
Qed.

Lemma run_keeps_columns (inputs : list input) :
  ∀ c : Component,
    Forall not_columns_arrival inputs →
    dynamicColumns (state (run c inputs).1) = dynamicColumns (state c).
Proof.
  induction inputs as [|i rest IH]; intros c H; [done|].
  apply Forall_cons in H as [Hi Hrest]. cbn [run].
  pose proof (step_keeps_columns c i Hi) as Hstep.
  destruct (step c i) as [c' log]. specialize (IH c' Hrest).
  destruct (run c' rest) as [c'' log']. cbn [fst] in *. congruence.
Qed.

(** C9, as stated, fails: after a first opening whose fetch delivered a
    column, the dialog is closed and opened again and the second fetch is
    rejected; the error is logged, and the extra-fields list still holds
    the column of the first fetch. *)
Lemma failed_refetch_keeps_columns_counterexample :
  let history := run (mount create_open sample_env).1
                     [FetchSettled (inl [sample_column]);
                      Render create_closed later_env;
                      Render create_open third_env;
                      FetchSettled (inr network_error)] in
  (mount create_open sample_env).2 ++ history.2
  = [setTempClientId (js "temp_1730000000000_k3j9x0q2a");
     setFormData default_form;
     getColumnMetadata;
     setDynamicColumns [sample_column];
     getColumnMetadata;
     console_error (js "Error fetching dynamic columns:") network_error]
  ∧ dynamicColumns (state history.1) = [sample_column]
  ∧ dynamicColumns (state history.1) ≠ [].
Proof. repeat split; (reflexivity || discriminate). Qed.

(** C9, amended: the extra column definitions are requested exactly once
    when the component is mounted open or [open] turns from false to true,
    and by nothing else (no field edit, no other render, no submit); when
    the fetch succeeds the returned columns are stored; when it fails the
    error is logged and the state, with it the extra-fields list, is left
    as it was: empty as long as no fetch has delivered columns, and
    otherwise the columns of the last fetch that did. *)
Theorem dynamic_columns_loading :
  (∀ (c : Component) (p : Props) (env : Env),
     open (props c) = false → open p = true →
     List.filter is_getColumnMetadata (step c (Render p env)).2
     = [getColumnMetadata])
  ∧ (∀ (p : Props) (env : Env),
       open p = true →
       List.filter is_getColumnMetadata (mount p env).2 = [getColumnMetadata])
  ∧ (∀ (c : Component) (i : input),
       not_opening (props c) i →
       List.filter is_getColumnMetadata (step c i).2 = [])
  ∧ (∀ (c : Component) (columns : list ColumnMetadata),
       (step c (FetchSettled (inl columns))).2 = [setDynamicColumns columns]
       ∧ dynamicColumns (state (step c (FetchSettled (inl columns))).1) = columns
       ∧ formData (state (step c (FetchSettled (inl columns))).1)
         = formData (state c))
  ∧ (∀ (c : Component) (error : jsval),
       step c (FetchSettled (inr error))
       = (c, [console_error (js "Error fetching dynamic columns:") error]))
  ∧ (∀ (p : Props) (env : Env) (inputs : list input),
       Forall not_columns_arrival inputs →
       dynamicColumns (state (run (mount p env).1 inputs).1) = []).
Proof.
  split; [|split; [|split; [|split; [|split]]]].
  - intros c p env Hold Hnew. unfold step. cbn [snd react].
    by rewrite effects_after_requests, Hold, Hnew.
  - intros p env Hopen. unfold mount. cbn [snd].
    rewrite actions_bind, init_effect_returns, List.filter_app,
      init_effect_no_request.
    unfold fetch_effect. by rewrite Hopen.
  - intros c i Hi. unfold step. cbn [snd].
    destruct i; cbn [react not_opening] in *; try done.
    + rewrite effects_after_requests.
      destruct (open (props c)); [done|]. by rewrite Hi.
    + destruct (handleSubmit_actions (props c) (state c)) as [-> | [[? ->] | ->]]; done.
    + by destruct settled.
  - done.
  - intros [p st] error. reflexivity.
  - intros p env inputs Hin. rewrite run_keeps_columns by done.
    unfold mount, init_effect, fetch_effect. cbn [fst state].
    by destruct (client p), (mode p), (open p).
Qed.

Lemma dynamic_columns_loading_witness :
  List.filter is_getColumnMetadata
    (step (mount create_closed sample_env).1 (Render create_open later_env)).2
  = [getColumnMetadata]
  ∧ List.filter is_getColumnMetadata (mount create_open sample_env).2
    = [getColumnMetadata]
  ∧ List.filter is_getColumnMetadata
      (step (mount create_open sample_env).1
            (Change first_name {| target_type := js "text"; target_checked := false;
                                  target_value := js "A" |})).2 = []
  ∧ dynamicColumns
      (state (run (mount create_open sample_env).1
                  [FetchSettled (inr network_error);
                   Render create_closed later_env;
                   Render create_open third_env;
                   FetchSettled (inr network_error)]).1) = [].
Proof.
  destruct dynamic_columns_loading as (Hopen & Hmount & Hother & _ & _ & Hempty).
  split; [|split; [|split]].
  - apply Hopen; reflexivity.
  - apply Hmount; reflexivity.
  - apply Hother. exact I.
  - apply Hempty. repeat constructor.
Defined.

(** * Further properties of the component *)

(** ** Dynamic fields *)

(** X1: a change reported by a dynamic field sets the property named by the
    column and no other; the value each dynamic field is rendered with
    afterwards is the reported value for the columns of that name and the
    value it had for every other column. *)
Theorem dynamic_field_change (c : Component) (columnName : jsstr) (value : jsval) :
  let c' := (step c (DynamicFieldChange columnName value)).1 in
  formData (state c') = <[columnName := value]> (formData (state c))
  ∧ get (formData (state c')) columnName = value
  ∧ (∀ k : jsstr, k ≠ columnName →
       formData (state c') !! k = formData (state c) !! k)
  ∧ render_dynamic_fields (state c')
    = (λ column,
         (column,
          if bool_decide (column_name column = columnName) then value
          else get (formData (state c)) (column_name column)))
      <$> dynamicColumns (state c).
Proof.
  cbn. split; [done|]. split; [|split].
  - unfold get. by rewrite lookup_insert_eq.
  - intros k Hk. by rewrite lookup_insert_ne.
  - unfold render_dynamic_fields. cbn. apply list_fmap_ext. intros _ column _.
    f_equal. unfold get. case_bool_decide as Hname.
    + by rewrite Hname, lookup_insert_eq.
    + by rewrite lookup_insert_ne.
Qed.

Lemma dynamic_field_change_witness :
  let c := {| props := create_open; state := number_in_first_name |} in
  let c' := (step c (DynamicFieldChange (js "referral_source")
                                        (VStr (js "friend")))).1 in
  render_dynamic_fields (state c') = [(sample_column, VStr (js "friend"))]
  ∧ formData (state c') !! last_name = formData (state c) !! last_name.
Proof.
  intros c c'. subst c'.
  destruct (dynamic_field_change c (js "referral_source") (VStr (js "friend")))
    as (_ & _ & Hother & Hshown).
  split; [rewrite Hshown; reflexivity | apply Hother; vm_compute; discriminate].
Defined.

(** ** Deleting entries of the two sub-maps *)

Section Delete.
(** Both delete handlers have the same shape: [key] is the property they
    rewrite and [deletion] the input that runs them. *)
Variable key : jsstr.
Variable deletion : jsstr → input.
Hypothesis deletion_unfold : ∀ (c : Component) (name : jsstr),
  formData (state (step c (deletion name)).1)
  = <[key := VObj (delete name (own_properties (get (formData (state c)) key)))]>
      (formData (state c)).

Lemma held_submap_properties (r : obj) (m : obj) :
  held_submap r key m → own_properties (get r key) = m.
Proof. by intros [-> | [[-> | ->] ->]]. Qed.

Lemma delete_removes_one (c : Component) (name : jsstr) (m : obj) :
  held_submap (formData (state c)) key m →
  (∃ m', formData (state (step c (deletion name)).1) !! key = Some (VObj m')
         ∧ m' !! name = None
         ∧ (∀ k, k ≠ name → m' !! k = m !! k)
         ∧ (m !! name = None → m' = m))
  ∧ (∀ k, k ≠ key →
       formData (state (step c (deletion name)).1) !! k
       = formData (state c) !! k).
Proof.
  intros Hheld. rewrite deletion_unfold, (held_submap_properties _ _ Hheld).
  split.
  - exists (delete name m). rewrite lookup_insert_eq. split; [done|].
    split; [apply lookup_delete_eq|]. split.
    + intros k Hk. by apply lookup_delete_ne.
    + apply delete_id.
  - intros k Hk. by apply lookup_insert_ne.
Qed.

End Delete.

(** X2: deleting a custom field, and likewise a document, removes the entry
    of that name from the held sub-map and nothing else: every other entry
    and every other property of the record stay, and deleting a name that
    is not there leaves the entries as they are. *)
Theorem delete_removes_exactly_one (c : Component) (name : jsstr) (m : obj) :
  (held_submap (formData (state c)) user_defined_fields m →
   (∃ m', formData (state (step c (DeleteCustomField name)).1)
            !! user_defined_fields = Some (VObj m')
          ∧ m' !! name = None
          ∧ (∀ k, k ≠ name → m' !! k = m !! k)
          ∧ (m !! name = None → m' = m))
   ∧ (∀ k, k ≠ user_defined_fields →
        formData (state (step c (DeleteCustomField name)).1) !! k
        = formData (state c) !! k))
  ∧ (held_submap (formData (state c)) client_documents m →
     (∃ m', formData (state (step c (DeleteDocument name)).1)
              !! client_documents = Some (VObj m')
            ∧ m' !! name = None
            ∧ (∀ k, k ≠ name → m' !! k = m !! k)
            ∧ (m !! name = None → m' = m))
     ∧ (∀ k, k ≠ client_documents →
          formData (state (step c (DeleteDocument name)).1) !! k
          = formData (state c) !! k)).
Proof.
  split; intros Hheld.
  - by apply (delete_removes_one user_defined_fields DeleteCustomField).
  - by apply (delete_removes_one client_documents DeleteDocument).
Qed.

Lemma delete_removes_exactly_one_witness :
  let c := {| props := create_open; state := filled_state |} in
  (∃ m', formData (state (step c (DeleteCustomField (js "nickname"))).1)
           !! user_defined_fields = Some (VObj m')
         ∧ m' !! js "nickname" = None)
  ∧ formData (state (step c (DeleteDocument (js "will.pdf"))).1) !! first_name
    = formData (state c) !! first_name.
Proof.
  intros c. split.
  - destruct (proj1 (delete_removes_exactly_one c (js "nickname")
                       {[ js "nickname" := VStr (js "AAL") ]}))
      as [(m' & Hm' & Hgone & _) _]; [left; reflexivity|].
    by exists m'.
  - destruct (proj2 (delete_removes_exactly_one c (js "will.pdf") ∅))
      as [_ Hother]; [right; split; [left|]; reflexivity|].
    apply Hother. vm_compute. discriminate.
Defined.

(** ** Saves and deletes together *)

Lemma own_properties_merged (key : jsstr) (sub : obj) (r : obj) :
  own_properties (or_else (get (<[key := VObj sub]> r) key) (VObj ∅)) = sub.
Proof. unfold get. by rewrite lookup_insert_eq. Qed.

Lemma get_insert_eq (r : obj) (k : jsstr) (v : jsval) : get (<[k := v]> r) k = v.
Proof. unfold get. by rewrite lookup_insert_eq. Qed.

Lemma get_insert_ne (r : obj) (k k' : jsstr) (v : jsval) :
  k ≠ k' → get (<[k := v]> r) k' = get r k'.
Proof. intros H. unfold get. by rewrite lookup_insert_ne. Qed.

Lemma run_two (c : Component) (i j : input) :
  (run c [i; j]).1 = (step (step c i).1 j).1.
Proof. reflexivity. Qed.

Lemma step_CustomFieldsSave (c : Component) (fields : obj) :
  formData (state (step c (CustomFieldsSave fields)).1)
  = merge_user_defined_fields fields (formData (state c)).
Proof. reflexivity. Qed.

Lemma step_DocumentsSave (c : Component) (documents : obj) :
  formData (state (step c (DocumentsSave documents)).1)
  = merge_client_documents documents (formData (state c)).
Proof. reflexivity. Qed.

Lemma step_DeleteCustomField (c : Component) (name : jsstr) :
  formData (state (step c (DeleteCustomField name)).1)
  = <[user_defined_fields :=
        VObj (delete name
                (own_properties (get (formData (state c)) user_defined_fields)))]>
      (formData (state c)).
Proof. reflexivity. Qed.

Lemma step_DeleteDocument (c : Component) (name : jsstr) :
  formData (state (step c (DeleteDocument name)).1)
  = <[client_documents :=
        VObj (delete name
                (own_properties (get (formData (state c)) client_documents)))]>
      (formData (state c)).
Proof. reflexivity. Qed.

Section SaveDelete.
Variable key : jsstr.
Variable merge : obj → obj → obj.
Hypothesis merge_unfold : ∀ fields prev : obj,
  merge fields prev
  = <[key := VObj (spread2 (own_properties (or_else (get prev key) (VObj ∅)))
                           fields)]> prev.

Lemma save_then_delete (r m : obj) (name : jsstr) (v : jsval) :
  held_submap r key m → m !! name = None →
  <[key := VObj (delete name (own_properties (get (merge {[ name := v ]} r) key)))]>
    (merge {[ name := v ]} r)
  = <[key := VObj m]> r.
Proof.
  intros Hheld Hname. rewrite merge_unfold.
  rewrite (held_submap_own_properties _ _ _ Hheld), insert_insert_eq.
  rewrite get_insert_eq. cbn [own_properties].
  unfold spread2. by rewrite <- insert_union_singleton_l, delete_insert_id.
Qed.

End SaveDelete.

(** X3: saving one new custom field and then deleting it leaves the held
    sub-map with exactly the entries it had before the save; the same holds
    for a document.  The record then holds that sub-map as an object: it is
    the record it was when the sub-map was stored as an object, and it has
    gained an empty object when the sub-map was absent. *)
Theorem save_delete_round_trip (c : Component) (name : jsstr) (v : jsval) (m : obj) :
  (held_submap (formData (state c)) user_defined_fields m →
   m !! name = None →
   formData (state (run c [CustomFieldsSave {[ name := v ]};
                           DeleteCustomField name]).1)
   = <[user_defined_fields := VObj m]> (formData (state c))
   ∧ (formData (state c) !! user_defined_fields = Some (VObj m) →
      formData (state (run c [CustomFieldsSave {[ name := v ]};
                              DeleteCustomField name]).1)
      = formData (state c)))
  ∧ (held_submap (formData (state c)) client_documents m →
     m !! name = None →
     formData (state (run c [DocumentsSave {[ name := v ]};
                             DeleteDocument name]).1)
     = <[client_documents := VObj m]> (formData (state c))
     ∧ (formData (state c) !! client_documents = Some (VObj m) →
        formData (state (run c [DocumentsSave {[ name := v ]};
                                DeleteDocument name]).1)
        = formData (state c))).
Proof.
  split; intros Hheld Hname; rewrite run_two.
  - rewrite step_DeleteCustomField, step_CustomFieldsSave.
    rewrite (save_then_delete user_defined_fields merge_user_defined_fields
               (λ _ _, eq_refl) _ m) by done.
    split; [done|]. apply insert_id.
  - rewrite step_DeleteDocument, step_DocumentsSave.
    rewrite (save_then_delete client_documents merge_client_documents
               (λ _ _, eq_refl) _ m) by done.
    split; [done|]. apply insert_id.
Qed.

Lemma save_delete_round_trip_witness :
  let c := {| props := create_open; state := filled_state |} in
  formData (state (run c [CustomFieldsSave {[ js "title" := VStr (js "Countess") ]};
                          DeleteCustomField (js "title")]).1)
  = formData (state c)
  ∧ formData (state (run c [DocumentsSave {[ js "will.pdf" := VStr (js "/d/1") ]};
                            DeleteDocument (js "will.pdf")]).1)
    = <[client_documents := VObj ∅]> (formData (state c)).
Proof.
  intros c.
  destruct (proj1 (save_delete_round_trip c (js "title") (VStr (js "Countess"))
                     {[ js "nickname" := VStr (js "AAL") ]}))
    as (_ & Hsame); [left; reflexivity | reflexivity |].
  destruct (proj2 (save_delete_round_trip c (js "will.pdf") (VStr (js "/d/1")) ∅))
    as (Hdoc & _); [right; split; [left|]; reflexivity | reflexivity |].
  split.
  - apply Hsame. reflexivity.
  - exact Hdoc.
Defined.

Section MergeLaws.
Variable key : jsstr.
Variable merge : obj → obj → obj.
Hypothesis merge_unfold : ∀ fields prev : obj,
  merge fields prev
  = <[key := VObj (spread2 (own_properties (or_else (get prev key) (VObj ∅)))
                           fields)]> prev.

Lemma merge_merge (f1 f2 r : obj) :
  merge f2 (merge f1 r) = merge (f2 ∪ f1) r.
Proof.
  rewrite !merge_unfold, own_properties_merged, insert_insert_eq.
  unfold spread2. by rewrite (assoc_L (∪)).
Qed.

Lemma merge_empty (r m : obj) :
  held_submap r key m → merge ∅ r = <[key := VObj m]> r.
Proof.
  intros H. rewrite merge_unfold, (held_submap_own_properties _ _ _ H).
  unfold spread2. by rewrite (left_id_L ∅ (∪)).
Qed.

End MergeLaws.

(** X4: two saves from the custom-fields dialog, or from the documents
    dialog, one after the other are one save of the second returned map laid
    over the first; so saving the same map twice is saving it once.  A save
    of the empty map keeps every entry: it only makes an absent sub-map
    an empty object. *)
Theorem saves_compose (c : Component) (f1 f2 m : obj) :
  formData (state (run c [CustomFieldsSave f1; CustomFieldsSave f2]).1)
  = formData (state (step c (CustomFieldsSave (f2 ∪ f1))).1)
  ∧ formData (state (run c [CustomFieldsSave f1; CustomFieldsSave f1]).1)
    = formData (state (step c (CustomFieldsSave f1)).1)
  ∧ formData (state (run c [DocumentsSave f1; DocumentsSave f2]).1)
    = formData (state (step c (DocumentsSave (f2 ∪ f1))).1)
  ∧ formData (state (run c [DocumentsSave f1; DocumentsSave f1]).1)
    = formData (state (step c (DocumentsSave f1)).1)
  ∧ (held_submap (formData (state c)) user_defined_fields m →
     formData (state (step c (CustomFieldsSave ∅)).1)
     = <[user_defined_fields := VObj m]> (formData (state c)))
  ∧ (held_submap (formData (state c)) client_documents m →
     formData (state (step c (DocumentsSave ∅)).1)
     = <[client_documents := VObj m]> (formData (state c))).
Proof.
  rewrite !run_two.
  repeat (rewrite step_CustomFieldsSave || rewrite step_DocumentsSave).
  split; [|split; [|split; [|split; [|split]]]].
  - by apply (merge_merge user_defined_fields).
  - rewrite (merge_merge user_defined_fields) by done.
    by rewrite (idemp_L (∪)).
  - by apply (merge_merge client_documents).
  - rewrite (merge_merge client_documents) by done.
    by rewrite (idemp_L (∪)).
  - by apply (merge_empty user_defined_fields).
  - by apply (merge_empty client_documents).
Qed.

Lemma saves_compose_witness :
  let c := {| props := create_open; state := filled_state |} in
  formData (state (step c (CustomFieldsSave ∅)).1) = formData (state c)
  ∧ formData (state (step c (DocumentsSave ∅)).1)
    = <[client_documents := VObj ∅]> (formData (state c)).
Proof.
  intros c.
  destruct (saves_compose c ∅ ∅ {[ js "nickname" := VStr (js "AAL") ]})
    as (_ & _ & _ & _ & Hfields & _).
  destruct (saves_compose c ∅ ∅ ∅) as (_ & _ & _ & _ & _ & Hdocs).
  split.
  - rewrite Hfields by (left; reflexivity). reflexivity.
  - apply Hdocs. right. split; [left|]; reflexivity.
Defined.

(** X5: the two sub-dialogs do not interfere: a save from the custom-fields
    dialog and a save from the documents dialog give the same record in
    either order, and each leaves the other's sub-map as it was. *)
Theorem saves_commute (c : Component) (fields documents : obj) :
  formData (state (run c [CustomFieldsSave fields; DocumentsSave documents]).1)
  = formData (state (run c [DocumentsSave documents; CustomFieldsSave fields]).1)
  ∧ formData (state (step c (CustomFieldsSave fields)).1) !! client_documents
    = formData (state c) !! client_documents
  ∧ formData (state (step c (DocumentsSave documents)).1) !! user_defined_fields
    = formData (state c) !! user_defined_fields.
Proof.
  assert (user_defined_fields ≠ client_documents) as Hne
    by (vm_compute; discriminate).
  rewrite !run_two.
  repeat (rewrite step_CustomFieldsSave || rewrite step_DocumentsSave).
  unfold merge_user_defined_fields, merge_client_documents.
  split; [|split].
  - rewrite !get_insert_ne by done. by apply insert_insert_ne.
  - by rewrite lookup_insert_ne.
  - by rewrite lookup_insert_ne.
Qed.

(** ** Submit: errors and what it leaves alone *)

(** X6: in create mode, when a mandatory field holds something that is
    neither text nor nothing (a number stored by a dynamic field of that
    name, say), the submit aborts with a TypeError at the optional call of
    [trim]: nothing is saved, no error notice is set, the state stays. *)
Theorem create_submit_throws (p : Props) (st : State) :
  mode p = Create →
  ¬ Forall (λ kl, is_text (get (formData st) kl.1) = true) mandatory →
  handleSubmit p st = ([], Threw (js "TypeError"))
  ∧ step {| props := p; state := st |} Submit = ({| props := p; state := st |}, []).
Proof.
  intros Hmode Hnot.
  assert (handleSubmit p st = ([], Threw (js "TypeError"))) as Hrun.
  { unfold handleSubmit. by rewrite Hmode, validateMandatoryFields_not_text. }
  split; [done|]. unfold step. cbn [react props state next_props]. by rewrite Hrun.
Qed.

Lemma create_submit_throws_witness :
  (step (run (mount create_open sample_env).1
             [DynamicFieldChange first_name (VNum 5)]).1 Submit).2 = []
  ∧ handleSubmit create_open number_in_first_name = ([], Threw (js "TypeError")).
Proof.
  split; [reflexivity|].
  apply (create_submit_throws create_open number_in_first_name eq_refl).
  intros H. apply Forall_cons in H as [H _]. vm_compute in H. discriminate.
Defined.

(** The error message of a submit is the fixed sentence followed by some of
    the four labels. *)
Lemma missing_labels_sublist (r : obj) :
  sublist (missing_labels r) (snd <$> mandatory).
Proof.
  unfold missing_labels. apply fmap_sublist.
  induction mandatory as [|kl l IH]; simpl; [done|].
  destruct (is_blank (get r kl.1)); by constructor.
Qed.

Lemma handleSubmit_cases (p : Props) (st : State) :
  actions (handleSubmit p st) = []
  ∨ (missing_labels (formData st) ≠ []
     ∧ actions (handleSubmit p st)
       = [setValidationError
            (js "Please fill the following mandatory fields: "
             ++ join (js ", ") (missing_labels (formData st)));
          setShowValidationError true])
  ∨ actions (handleSubmit p st) = [onSave (formData st)].
Proof.
  unfold handleSubmit. destruct (mode p); [|by right; right].
  destruct (decide (Forall (λ kl, is_text (get (formData st) kl.1) = true) mandatory))
    as [Htext | Hnot].
  - rewrite (validateMandatoryFields_text _ Htext).
    destruct (missing_labels (formData st)) eqn:E; [by right; right|].
    right; left. by split.
  - rewrite (validateMandatoryFields_not_text _ Hnot). by left.
Qed.

(** X7: whatever the mode and the record, a submit never calls the close
    callback and never changes the held record, the temporary identifier,
    the stored columns or the two sub-dialog flags; it calls the save
    callback at most once, and only with the held record; and when it saves
    it leaves the error notice as it is. *)
Theorem submit_frame (p : Props) (st : State) :
  let log := actions (handleSubmit p st) in
  let st' := commit st log in
  List.filter is_onClose log = []
  ∧ (formData st', tempClientId st', dynamicColumns st',
     customFieldsOpen st', documentsOpen st')
    = (formData st, tempClientId st, dynamicColumns st,
       customFieldsOpen st, documentsOpen st)
  ∧ (List.filter is_onSave log = []
     ∨ List.filter is_onSave log = [onSave (formData st)])
  ∧ (List.filter is_onSave log ≠ [] → st' = st).
Proof.
  intros log st'. subst log st'.
  destruct (handleSubmit_cases p st) as [-> | [[_ ->] | ->]]; cbn.
  - repeat split; auto.
  - repeat split; auto. by intros [].
  - repeat split; auto.
Qed.

Lemma submit_frame_witness :
  commit filled_state (actions (handleSubmit create_open filled_state)) = filled_state.
Proof.
  apply (submit_frame create_open filled_state). vm_compute. discriminate.
Defined.

(** ** The error notice *)

Lemma step_notice (c : Component) (i : input) :
  notice_well_formed (state c) → notice_well_formed (state (step c i).1).
Proof.
  intros Hc. unfold step. cbn [fst state].
  destruct i; cbn [react]; try exact Hc.
  - unfold effects_after, init_effect, fetch_effect.
    by destruct (init_deps_same (props c) new_props), (client new_props),
         (mode new_props), (fetch_deps_same (props c) new_props), (open new_props).
  - destruct (handleSubmit_cases (props c) (state c)) as [-> | [[Hne ->] | ->]];
      [exact Hc | | exact Hc].
    intros _. exists (missing_labels (formData (state c))).
    split; [done|]. split; [apply missing_labels_sublist | done].
  - intros Hshown. discriminate Hshown.
  - by destruct settled.
Qed.

(** X8: at every moment of the life of a mounted component, if the error
    notice is shown then its text is the sentence "Please fill the
    following mandatory fields: " followed by a non-empty selection of the
    four labels, in their order, separated by ", ": the notice is never
    shown empty or with a text of another origin. *)
Theorem notice_always_well_formed (p : Props) (env : Env) (inputs : list input) :
  notice_well_formed (state (run (mount p env).1 inputs).1).
Proof.
  assert (notice_well_formed (state (mount p env).1)) as Hmount.
  { unfold mount, init_effect, fetch_effect. cbn [fst state].
    destruct (client p), (mode p), (open p); intros H; discriminate H. }
  revert Hmount. generalize (mount p env).1.
  induction inputs as [|i rest IH]; intros c Hc; [exact Hc|].
  cbn [run]. pose proof (step_notice c i Hc) as Hstep.
  destruct (step c i) as [c' log]. specialize (IH c' Hstep).
  by destruct (run c' rest).
Qed.

(** ** The inline errors of the mandatory fields *)

Lemma is_missing_formData (st st' : State) (field : jsstr) :
  formData st' = formData st → is_missing st' field = is_missing st field.
Proof. unfold is_missing. by intros ->. Qed.

(** X9: the input of a mandatory field is marked as an error only in create
    mode and only while the error notice is shown, and then exactly when
    the field is empty; in edit mode, or with the notice hidden, the test
    is not even evaluated, so it cannot throw.  Right after a failed
    submit the marked fields are exactly those the notice names. *)
Theorem inline_errors (p : Props) (st : State) (field : jsstr) :
  (mode p = Edit → field_error p st field = ([], Returned false))
  ∧ (showValidationError st = false →
     field_error p st field = ([], Returned false))
  ∧ (mode p = Create → showValidationError st = true →
     is_text (get (formData st) field) = true →
     field_error p st field = ([], Returned (is_blank (get (formData st) field)))
     ∧ field_helperText p st field
       = ([], Returned (if is_blank (get (formData st) field)
                        then js "This field is required" else [])))
  ∧ (mode p = Create →
     Forall (λ kl, is_text (get (formData st) kl.1) = true) mandatory →
     missing_labels (formData st) ≠ [] →
     Forall (λ kl, field_error p (commit st (actions (handleSubmit p st))) kl.1
                   = ([], Returned (bool_decide (kl.2 ∈ missing_labels (formData st)))))
            mandatory).
Proof.
  split; [|split; [|split]].
  - intros Hmode. unfold field_error. by rewrite Hmode.
  - intros Hshow. unfold field_error. rewrite Hshow. by destruct (mode p).
  - intros Hmode Hshow Htext. unfold field_helperText, field_error.
    rewrite Hmode, Hshow. cbn [Mode_eqb]. by rewrite (is_missing_text _ _ Htext).
  - intros Hmode Htext Hmiss.
    assert (actions (handleSubmit p st)
            = [setValidationError
                 (js "Please fill the following mandatory fields: "
                  ++ join (js ", ") (missing_labels (formData st)));
               setShowValidationError true]) as ->.
    { unfold handleSubmit. rewrite Hmode, (validateMandatoryFields_text _ Htext).
      by destruct (missing_labels (formData st)). }
    assert (∀ kl, kl ∈ mandatory →
              bool_decide (kl.2 ∈ missing_labels (formData st))
              = is_blank (get (formData st) kl.1)) as Hnamed.
    { intros kl Hkl. unfold missing_labels, mandatory in *. cbn [List.filter fst].
      repeat (apply elem_of_cons in Hkl as [-> | Hkl]);
        [..| by apply elem_of_nil in Hkl]; cbn [fst snd];
        destruct (is_blank (get (formData st) first_name)),
                 (is_blank (get (formData st) last_name)),
                 (is_blank (get (formData st) primary_email)),
                 (is_blank (get (formData st) primary_phone));
        vm_compute; reflexivity. }
    apply Forall_forall. intros kl Hkl. rewrite (Hnamed kl Hkl).
    unfold field_error. rewrite Hmode. cbn [Mode_eqb].
    change (showValidationError (commit st _)) with true. cbn iota.
    rewrite (is_missing_formData st) by reflexivity.
    apply is_missing_text. by apply (proj1 (Forall_forall _ _) Htext).
Qed.

Lemma inline_errors_witness :
  field_error create_open
    (commit only_first_name (actions (handleSubmit create_open only_first_name)))
    last_name = ([], Returned true)
  ∧ field_error create_open
      (commit only_first_name (actions (handleSubmit create_open only_first_name)))
      first_name = ([], Returned false)
  ∧ field_error {| open := true; client := None; mode := Edit |}
      number_in_first_name first_name = ([], Returned false).
Proof.
  destruct (inline_errors create_open only_first_name first_name)
    as (_ & _ & _ & Hafter).
  specialize (Hafter eq_refl).
  assert (Forall (λ kl, is_text (get (formData only_first_name) kl.1) = true)
                 mandatory) as Htext by repeat constructor.
  specialize (Hafter Htext).
  assert (missing_labels (formData only_first_name) ≠ []) as Hmiss
    by (vm_compute; discriminate).
  specialize (Hafter Hmiss).
  apply Forall_cons in Hafter as [Hfirst Hafter].
  apply Forall_cons in Hafter as [Hlast _].
  cbn [fst snd] in Hfirst, Hlast.
  split; [|split].
  - rewrite Hlast. reflexivity.
  - rewrite Hfirst. reflexivity.
  - apply (proj1 (inline_errors {| open := true; client := None; mode := Edit |}
                    number_in_first_name first_name)). reflexivity.
Defined.

(** ** What changes a property of the held record *)

Lemma step_leaves_key (c : Component) (k : jsstr) (i : input) :
  leaves_key (props c) k i →
  formData (state (step c i).1) !! k = formData (state c) !! k.
Proof.
  unfold step. cbn [fst state]. destruct i; cbn [react leaves_key]; try done.
  - intros Hsame. unfold effects_after. rewrite Hsame.
    destruct (fetch_deps_same (props c) new_props); [done|].
    unfold fetch_effect. by destruct (open new_props).
  - intros Hk. cbn. by rewrite lookup_insert_ne.
  - intros Hk. cbn. by rewrite lookup_insert_ne.
  - intros Hk. cbn. unfold merge_user_defined_fields. by rewrite lookup_insert_ne.
  - intros Hk. cbn. unfold merge_client_documents. by rewrite lookup_insert_ne.
  - intros Hk. cbn. by rewrite lookup_insert_ne.
  - intros Hk. cbn. by rewrite lookup_insert_ne.
  - destruct (handleSubmit_cases (props c) (state c)) as [-> | [[_ ->] | ->]]; done.
  - by destruct settled.
Qed.

Lemma step_props (c : Component) (i : input) :
  props (step c i).1 = next_props c i.
Proof. reflexivity. Qed.

Lemma leaves_key_next (c : Component) (k : jsstr) (i j : input) :
  leaves_key (props c) k i → leaves_key (props c) k j →
  leaves_key (next_props c i) k j.
Proof.
  destruct i; cbn [next_props]; try done.
  destruct j; cbn [leaves_key]; try done. apply init_deps_same_trans.
Qed.

Lemma run_leaves_key (k : jsstr) (inputs : list input) :
  ∀ c : Component,
    Forall (leaves_key (props c) k) inputs →
    formData (state (run c inputs).1) !! k = formData (state c) !! k.
Proof.
  induction inputs as [|i rest IH]; intros c H; [done|].
  apply Forall_cons in H as [Hi Hrest]. cbn [run].
  pose proof (step_leaves_key c k i Hi) as Hstep.
  pose proof (step_props c i) as Hprops.
  destruct (step c i) as [c' log]. specialize (IH c').
  destruct (run c' rest) as [c'' log']. cbn [fst] in *.
  rewrite IH, Hstep; [done|]. rewrite Hprops.
  eapply Forall_impl; [exact Hrest|]. intros j Hj. by apply leaves_key_next.
Qed.

(** X10: a property of the held record changes only through an edit of that
    very property (a field change or a dynamic field change naming it, or,
    for the two sub-maps, a save or a delete of the matching sub-dialog) or
    through a render that changes the client or the mode: every other
    sequence of events, however long, leaves the property as it was. *)
Theorem record_key_frame (c : Component) (k : jsstr) (inputs : list input) :
  Forall (leaves_key (props c) k) inputs →
  formData (state (run c inputs).1) !! k = formData (state c) !! k.
Proof. apply run_leaves_key. Qed.

Lemma record_key_frame_witness :
  formData (state (run {| props := create_open; state := filled_state |}
                       [Change last_name (text_event "Byron");
                        DynamicFieldChange (js "referral_source") (VStr (js "friend"));
                        CustomFieldsSave {[ js "title" := VStr (js "Countess") ]};
                        Render create_closed later_env;
                        Render create_open third_env;
                        Submit]).1) !! first_name
  = Some (VStr (js " Ada ")).
Proof.
  rewrite (record_key_frame {| props := create_open; state := filled_state |}
             first_name).
  - reflexivity.
  - repeat constructor; vm_compute; discriminate.
Defined.

(** X11: the active switch shows [formData.is_active ?? true].  In a create
    session in which the switch is never touched the record never gets an
    [is_active] property: the switch is shown checked, and the record a
    submit passes to the save callback has no activity flag.  A flag that
    was set, also to false, is shown as it is. *)
Theorem active_switch_default (o : bool) (oc : option Client) (env : Env)
    (inputs : list input) :
  let c := (mount {| open := o; client := oc; mode := Create |} env).1 in
  let st := state (run c inputs).1 in
  (Forall (leaves_key (props c) is_active) inputs →
   formData st !! is_active = None
   ∧ active_switch_checked st = VBool true
   ∧ ∀ (p : Props) (r : obj),
       onSave r ∈ actions (handleSubmit p st) → r !! is_active = None)
  ∧ (∀ b : bool, formData st !! is_active = Some (VBool b) →
                 active_switch_checked st = VBool b).
Proof.
  intros c st. split.
  - intros Hleft.
    assert (formData st !! is_active = None) as Hnone.
    { unfold st. rewrite (run_leaves_key is_active inputs c Hleft).
      unfold c, mount, init_effect, fetch_effect. cbn [fst state].
      by destruct oc, o. }
    split; [done|]. split.
    + unfold active_switch_checked, get. by rewrite Hnone.
    + intros p r Hr.
      destruct (handleSubmit_cases p st) as [H | [[_ H] | H]];
        rewrite H in Hr.
      * by apply elem_of_nil in Hr.
      * apply elem_of_cons in Hr as [Hr | Hr]; [discriminate Hr|].
        apply elem_of_cons in Hr as [Hr | Hr]; [discriminate Hr|].
        by apply elem_of_nil in Hr.
      * apply elem_of_cons in Hr as [Hr | Hr]; [|by apply elem_of_nil in Hr].
        by injection Hr as ->.
  - intros b Hb. unfold active_switch_checked, get. by rewrite Hb.
Qed.

Lemma active_switch_default_witness :
  let c := (mount create_open sample_env).1 in
  let st := state (run c [Change first_name (text_event "Ada");
                          Change last_name (text_event "Lovelace");
                          Change primary_email (text_event "ada@example.org");
                          Change primary_phone (text_event "555 0100")]).1 in
  active_switch_checked st = VBool true
  ∧ actions (handleSubmit create_open st) = [onSave (formData st)]
  ∧ formData st !! is_active = None.
Proof.
  intros c st.
  destruct (proj1 (active_switch_default true None sample_env
                     [Change first_name (text_event "Ada");
                      Change last_name (text_event "Lovelace");
                      Change primary_email (text_event "ada@example.org");
                      Change primary_phone (text_event "555 0100")]))
    as (Hnone & Hshown & _).
  - repeat constructor; vm_compute; discriminate.
  - split; [exact Hshown | split; [reflexivity | exact Hnone]].
Defined.

(** ** Requests along a run *)

Lemma step_requests (c : Component) (i : input) :
  List.filter is_getColumnMetadata (step c i).2
  = match i with
    | Render new_props _ =>
        if negb (open (props c)) && open new_props then [getColumnMetadata] else []
    | _ => []
    end.
Proof.
  unfold step. cbn [snd]. destruct i; cbn [react]; try done.
  - apply effects_after_requests.
  - destruct (handleSubmit_cases (props c) (state c)) as [-> | [[_ ->] | ->]]; done.
  - by destruct settled.
Qed.

Lemma run_cons (c : Component) (i : input) (rest : list input) :
  run c (i :: rest)
  = ((run (step c i).1 rest).1, (step c i).2 ++ (run (step c i).1 rest).2).
Proof.
  change (run c (i :: rest))
    with (let '(c', log) := step c i in
          let '(c'', log') := run c' rest in (c'', log ++ log')).
  destruct (step c i) as [c' log]. cbn [fst snd]. by destruct (run c' rest).
Qed.

(** X12: along any sequence of events the column definitions are requested
    once for each time [open] turns from false to true, and never
    otherwise: the number of requests is the number of openings. *)
Theorem requests_count_openings (inputs : list input) (c : Component) :
  length (List.filter is_getColumnMetadata (run c inputs).2)
  = count_openings (open (props c)) inputs.
Proof.
  revert c. induction inputs as [|i rest IH]; intros c; [done|].
  rewrite run_cons. cbn [snd].
  rewrite List.filter_app, length_app, IH, step_requests, step_props.
  destruct i; cbn [count_openings next_props]; try done.
  by destruct (negb (open (props c)) && open new_props).
Qed.

Example requests_count_example :
  length (List.filter is_getColumnMetadata
            (run (mount create_closed sample_env).1
                 [Render create_open later_env;
                  Change first_name (text_event "A");
                  Change first_name (text_event "Ad");
                  Render create_open third_env;
                  Render create_closed third_env;
                  Render create_open third_env;
                  Submit]).2) = 2%nat.
Proof. reflexivity. Qed.

(** ** Closing and opening again *)

(** X13: events that edit nothing and keep the client and the mode (closing
    and opening the dialog, cancel, opening and closing the sub-dialogs,
    previews, submits, dismissing the notice, answers of the fetch) leave
    the held record and the temporary identifier as they are: the form
    that is opened again shows what was entered before it was closed. *)
Theorem record_survives_reopening (c : Component) (inputs : list input) :
  Forall (leaves_record (props c)) inputs →
  formData (state (run c inputs).1) = formData (state c)
  ∧ tempClientId (state (run c inputs).1) = tempClientId (state c).
Proof.
  intros H. split.
  - apply map_eq. intros k. apply run_leaves_key.
    eapply Forall_impl; [exact H|]. intros i Hi. by destruct i.
  - apply run_keeps_temp_id.
    eapply Forall_impl; [exact H|]. intros i Hi. by destruct i.
Qed.

Lemma record_survives_reopening_witness :
  formData (state (run {| props := create_open; state := filled_state |}
                       [Cancel; Render create_closed later_env;
                        Render create_open third_env;
                        FetchSettled (inl [sample_column])]).1)
  = filled_form.
Proof.
  apply (record_survives_reopening {| props := create_open; state := filled_state |}).
  repeat constructor.
Defined.

(** ** Updates queued in one render *)

Lemma commit_app (st : State) (log log' : list action) :
  commit st (log ++ log') = commit (commit st log) log'.
Proof. apply foldl_app. Qed.

(** X14: the updates of the dynamic fields, of the two saves and of the two
    deletes are functions of the pending record, those of [handleChange]
    are not.  Queued after other updates of the same render, a dynamic
    field change or a save is applied to what those updates produce; a
    delete keeps their changes outside its sub-map but writes the sub-map of
    the render minus the entry; and a field change writes the record of the
    render with its one property replaced, dropping what was pending. *)
Theorem queued_updates (st : State) (pending : list action) :
  (∀ (columnName : jsstr) (value : jsval),
     formData (commit st (pending
                          ++ actions (handleDynamicFieldChange columnName value)))
     = <[columnName := value]> (formData (commit st pending)))
  ∧ (∀ fields : obj,
       formData (commit st (pending ++ actions (handleCustomFieldsSave fields)))
       = merge_user_defined_fields fields (formData (commit st pending)))
  ∧ (∀ documents : obj,
       formData (commit st (pending ++ actions (handleDocumentsSave documents)))
       = merge_client_documents documents (formData (commit st pending)))
  ∧ (∀ fieldName : jsstr,
       formData (commit st (pending ++ actions (handleDeleteCustomField st fieldName)))
       = <[user_defined_fields :=
             VObj (delete fieldName
                     (own_properties (get (formData st) user_defined_fields)))]>
           (formData (commit st pending)))
  ∧ (∀ docName : jsstr,
       formData (commit st (pending ++ actions (handleDeleteDocument st docName)))
       = <[client_documents :=
             VObj (delete docName
                     (own_properties (get (formData st) client_documents)))]>
           (formData (commit st pending)))
  ∧ (∀ (field : jsstr) (event : ChangeEvent),
       formData (commit st (pending ++ actions (handleChange st field event)))
       = <[field := if bool_decide (target_type event = js "checkbox")
                    then VBool (target_checked event)
                    else VStr (target_value event)]> (formData st)).
Proof.
  repeat split; intros; by rewrite commit_app.
Qed.

(** Two field changes handled in one render: the first one is lost. *)
Example two_changes_in_one_render :
  formData (commit filled_state
              (actions (handleChange filled_state last_name (text_event "Byron"))
               ++ actions (handleChange filled_state first_name (text_event "Augusta"))))
    !! last_name = Some (VStr (js "Lovelace")).
Proof. reflexivity. Qed.

(** ** How the sub-maps are shown *)

Lemma size_positive (m : obj) : (0 <? size m)%nat = negb (bool_decide (m = ∅)).
Proof.
  case_bool_decide as Hm.
  - subst m. by rewrite map_size_empty.
  - apply Nat.ltb_lt. apply map_size_non_empty_iff in Hm. lia.
Qed.

(** X15: the list of custom fields, and likewise the list of documents, is
    shown exactly when the held sub-map has an entry, the placeholder text
    otherwise, also when the sub-map is absent or an empty object; and the
    two sub-dialogs are handed the held sub-map, an empty object when it is
    absent, never [undefined]. *)
Theorem sub_maps_shown (p : Props) (st : State) (m : obj) :
  (held_submap (formData st) user_defined_fields m →
   custom_fields_listed st = negb (bool_decide (m = ∅))
   ∧ cf_fields (render_CustomFieldsDialog st) = VObj m)
  ∧ (held_submap (formData st) client_documents m →
     documents_listed st = negb (bool_decide (m = ∅))
     ∧ dd_documents (render_DocumentsDialog p st) = VObj m).
Proof.
  unfold custom_fields_listed, documents_listed, render_CustomFieldsDialog,
    render_DocumentsDialog. cbn [cf_fields dd_documents].
  split; intros [-> | [[-> | ->] ->]]; cbn [truthy own_properties or_else andb];
    by rewrite ?size_positive.
Qed.

Lemma sub_maps_shown_witness :
  custom_fields_listed filled_state = true
  ∧ documents_listed filled_state = false
  ∧ dd_documents (render_DocumentsDialog create_open filled_state) = VObj ∅.
Proof.
  destruct (proj1 (sub_maps_shown create_open filled_state
                     {[ js "nickname" := VStr (js "AAL") ]}))
    as [Hlisted _]; [left; reflexivity|].
  destruct (proj2 (sub_maps_shown create_open filled_state ∅))
    as [Hdocs Hdialog]; [right; split; [left|]; reflexivity|].
  split; [|split].
  - rewrite Hlisted. reflexivity.
  - rewrite Hdocs. reflexivity.
  - exact Hdialog.
Defined.

(** ** Answers of the fetch *)

(** X16: the stored columns are at every moment those of the last fetch
    that was fulfilled, whichever request it answers and whether or not the
    dialog is still open when it arrives; as long as none was fulfilled they
    are what they were.  Rejected fetches and all other events do not
    change them. *)
Theorem columns_are_last_arrival (inputs : list input) (c : Component) :
  dynamicColumns (state (run c inputs).1)
  = default (dynamicColumns (state c)) (last_arrival inputs).
Proof.
  revert c. induction inputs as [|i rest IH]; intros c; [done|].
  rewrite run_cons. cbn [fst last_arrival]. rewrite IH.
  destruct (last_arrival rest) as [columns|]; [done|]. cbn [default].
  assert (not_columns_arrival i ∨ ∃ columns, i = FetchSettled (inl columns))
    as [Hi | [columns ->]].
  { destruct i as [| | | | | | | | | | | | | | |[columns|?]];
      try (by left). right. by exists columns. }
  - rewrite (step_keeps_columns c i Hi).
    destruct i as [| | | | | | | | | | | | | | |[?|?]]; done.
  - reflexivity.
Qed.

Example late_answer_example :
  dynamicColumns
    (state (run (mount create_open sample_env).1
                [Render create_closed later_env;
                 FetchSettled (inl [sample_column])]).1) = [sample_column].
Proof. reflexivity. Qed.

(** ** The documents identifier within a session *)

Lemma same_client_and_mode_keeps_session (p : Props) (i : input) :
  same_client_and_mode p i → keeps_session p i.
Proof.
  destruct i; cbn; try done. intros [Hc Hm].
  unfold init_deps_same, same_object. rewrite Hc, Hm.
  destruct (client p), (mode p); cbn; by rewrite ?N.eqb_refl.
Qed.

Lemma run_same_client_and_mode (inputs : list input) :
  ∀ c : Component,
    Forall (same_client_and_mode (props c)) inputs →
    client (props (run c inputs).1) = client (props c)
    ∧ mode (props (run c inputs).1) = mode (props c).
Proof.
  induction inputs as [|i rest IH]; intros c H; [done|].
  apply Forall_cons in H as [Hi Hrest]. rewrite run_cons. cbn [fst].
  assert (client (props (step c i).1) = client (props c)
          ∧ mode (props (step c i).1) = mode (props c)) as [Hc Hm].
  { rewrite step_props. by destruct i. }
  destruct (IH (step c i).1) as [Hc' Hm'].
  - eapply Forall_impl; [exact Hrest|]. intros j Hj.
    destruct j; cbn [same_client_and_mode] in *; try done.
    by rewrite Hc, Hm.
  - by rewrite Hc', Hm'.
Qed.

(** X17: through any sequence of events in which the component is rendered
    with the same client and the same mode, the identifier handed to the
    documents dialog stays the same: documents uploaded at any moment of one
    session go under one identifier, in create mode the temporary one
    throughout. *)
Theorem documents_id_stable (c : Component) (inputs : list input) :
  Forall (same_client_and_mode (props c)) inputs →
  let c' := (run c inputs).1 in
  dd_clientId (render_DocumentsDialog (props c') (state c'))
  = dd_clientId (render_DocumentsDialog (props c) (state c))
  ∧ (mode (props c) = Create →
     dd_clientId (render_DocumentsDialog (props c') (state c'))
     = tempClientId (state c)).
Proof.
  intros H c'.
  destruct (run_same_client_and_mode inputs c H) as [Hc Hm].
  assert (tempClientId (state c') = tempClientId (state c)) as Ht.
  { apply run_keeps_temp_id. eapply Forall_impl; [exact H|].
    apply same_client_and_mode_keeps_session. }
  fold c' in Hc, Hm.
  unfold render_DocumentsDialog, getClientIdForDocuments. cbn [dd_clientId].
  rewrite Hc, Hm, Ht. split; [done|]. by intros ->.
Qed.

Lemma documents_id_stable_witness :
  let c := (mount create_open sample_env).1 in
  let c' := (run c [Change first_name (text_event "Ada");
                    DocumentsSave {[ js "will.pdf" := VStr (js "/d/1") ]};
                    Render create_closed later_env;
                    Render create_open third_env;
                    DeleteDocument (js "will.pdf")]).1 in
  dd_clientId (render_DocumentsDialog (props c') (state c'))
  = js "temp_1730000000000_k3j9x0q2a".
Proof.
  intros c c'. subst c'.
  destruct (documents_id_stable c
              [Change first_name (text_event "Ada");
               DocumentsSave {[ js "will.pdf" := VStr (js "/d/1") ]};
               Render create_closed later_env;
               Render create_open third_env;
               DeleteDocument (js "will.pdf")]) as [Hsame _].
  - repeat constructor.
  - rewrite Hsame. reflexivity.
Defined.

End ClientDialog.
